(** * PluginController: a shallow embedding of
      packages/controllers/src/plugins/PluginController.ts

    JavaScript objects used as dictionaries (plugin records, the [plugins]
    and [pluginStates] documents, the [Map]s of hooks and pending
    installations) are finite maps keyed by strings.  Asynchronous methods
    are functions from the controller to a settled outcome and a new
    controller: one operation runs from its call to its settlement, the
    collaborators (network, permission system, worker controller) answer
    as functions of their arguments, and every call into a collaborator
    is appended to a trace.  Keys are enumerated in the order of the map,
    which need not be the order of insertion.  Console output is not
    modelled. *)

From stdpp Require Import gmap strings list fin_maps pretty.

Set Warnings "-register-all,-clear-no-such-hyp".
Open Scope string_scope.

(** ** JavaScript values *)

Inductive JsValue :=
| JUndefined
| JNull
| JBool (b : bool)
| JNumber (n : Z)
| JString (s : string)
| JObject (fields : gmap string JsValue).

Abbreviation JsObject := (gmap string JsValue).

Inductive JsError :=
| Error (message : string)
| TypeError (message : string)
| EthereumProviderError (code : Z) (message : string).

Definition err_message (e : JsError) : string :=
  match e with
  | Error m | TypeError m | EthereumProviderError _ m => m
  end.

(** The outcome of a promise once it has settled. *)
Inductive Settled (A : Type) :=
| Fulfilled (a : A)
| Rejected (e : JsError).
Arguments Fulfilled {A} a.
Arguments Rejected {A} e.

(** Truthiness, as used by [if (x)], [!x], [x || y] and [x?.p]. *)
Definition js_truthy (v : JsValue) : bool :=
  match v with
  | JUndefined | JNull => false
  | JBool b => b
  | JNumber n => negb (n =? 0)%Z
  | JString s => negb (String.eqb s "")
  | JObject _ => true
  end.

(** [String(v)], the coercion [fetch] applies to its argument.  A number
    stands for an integer of magnitude below 10^21, which [String] prints
    in full. *)
Definition js_to_string (v : JsValue) : string :=
  match v with
  | JUndefined => "undefined"
  | JNull => "null"
  | JBool true => "true"
  | JBool false => "false"
  | JNumber n => pretty n
  | JString s => s
  | JObject _ => "[object Object]"
  end.

(** [v[k]] for a key that is neither an index nor [length]: reading a
    property of [undefined] or [null] throws, a primitive has none. *)
Definition js_get (v : JsValue) (k : string) : Settled JsValue :=
  match v with
  | JUndefined | JNull =>
      Rejected (TypeError ("Cannot read property '" ++ k ++ "' of " ++ js_to_string v))
  | JObject o => Fulfilled (default JUndefined (o !! k))
  | _ => Fulfilled JUndefined
  end.

(** [Object.keys(v).length]; [Object.keys] throws on [undefined] and [null]
    and lists the indices of a string. *)
Definition js_keys_length (v : JsValue) : Settled nat :=
  match v with
  | JUndefined | JNull =>
      Rejected (TypeError "Cannot convert undefined or null to object")
  | JObject o => Fulfilled (size o)
  | JString s => Fulfilled (String.length s)
  | _ => Fulfilled 0
  end.

(** [o[k]] on an object: [undefined] when the key is missing. *)
Definition field (o : JsObject) (k : string) : JsValue :=
  default JUndefined (o !! k).

(** ** Constants *)

Definition PLUGIN_PREFIX : string := "wallet_plugin_".

Definition SERIALIZABLE_PLUGIN_PROPERTIES : gset string :=
  {[ "initialPermissions"; "name"; "permissionName" ]}.

(** The property names every plain object inherits from
    [Object.prototype]. *)
Definition OBJECT_PROTOTYPE_KEYS : gset string :=
  {[ "constructor"; "__proto__"; "hasOwnProperty"; "isPrototypeOf";
     "propertyIsEnumerable"; "toLocaleString"; "toString"; "valueOf";
     "__defineGetter__"; "__defineSetter__"; "__lookupGetter__";
     "__lookupSetter__" ]}.

(** [o[k]] on a plain object used as a dictionary: the own property when
    there is one, else the built-in inherited from [Object.prototype] when
    [k] names one, else [undefined].  [builtin] stands for the inherited
    value (a function, or [Object.prototype] itself for [__proto__]): it is
    truthy, has no own enumerable property and none of the properties the
    controller reads. *)
Definition read_property {A} (builtin : A) (o : gmap string A) (k : string)
    : option A :=
  match o !! k with
  | Some v => Some v
  | None => if bool_decide (k ∈ OBJECT_PROTOTYPE_KEYS) then Some builtin else None
  end.

(** An object filled by assignments [o[k] = v] with object values: the
    assignment to [__proto__] goes through the inherited setter, which
    replaces the prototype and creates no own property; reading
    [o.__proto__] gives the prototype back. *)
Record JsDict (A : Type) := mkDict {
  entries : gmap string A;
  prototype : option A
}.
Arguments mkDict {A} _ _.
Arguments entries {A} _.
Arguments prototype {A} _.

Definition dict_empty {A} : JsDict A := mkDict ∅ None.

Definition assign {A} (k : string) (v : A) (o : JsDict A) : JsDict A :=
  if String.eqb k "__proto__" then mkDict (entries o) (Some v)
  else mkDict (<[k := v]> (entries o)) (prototype o).

(** [o[k]] read back from such an object, for the keys that were
    assigned. *)
#[global] Instance JsDict_lookup {A} : Lookup string A (JsDict A) :=
  λ k o, if String.eqb k "__proto__" then prototype o else entries o !! k.

(** ** State documents *)

Record PluginControllerState := mkState {
  plugins : gmap string JsObject;
  pluginStates : gmap string JsValue
}.

(** [Partial<PluginControllerState>]: a patch holds the keys it sets. *)
Record PartialState := mkPartialState {
  patchPlugins : option (gmap string JsObject);
  patchPluginStates : option (gmap string JsValue)
}.

Record PluginControllerMemState := mkMemState {
  inlinePluginIsRunning : bool;
  memPlugins : gmap string JsObject;
  memPluginStates : gmap string JsValue
}.

Record PartialMemState := mkPartialMemState {
  patchInlinePluginIsRunning : option bool;
  patchMemPlugins : option (gmap string JsObject);
  patchMemPluginStates : option (gmap string JsValue)
}.

(** [ObservableStore.updateState]: [{ ...state, ...patch }]. *)
Definition store_updateState (patch : PartialState)
    (st : PluginControllerState) : PluginControllerState :=
  {| plugins := default (plugins st) (patchPlugins patch);
     pluginStates := default (pluginStates st) (patchPluginStates patch) |}.

Definition memStore_updateState (patch : PartialMemState)
    (st : PluginControllerMemState) : PluginControllerMemState :=
  {| inlinePluginIsRunning :=
       default (inlinePluginIsRunning st) (patchInlinePluginIsRunning patch);
     memPlugins := default (memPlugins st) (patchMemPlugins patch);
     memPluginStates := default (memPluginStates st) (patchMemPluginStates patch) |}.

(** ** Promises, hooks, trace *)

Record Promise (A : Type) := mkPromise {
  promiseId : nat;
  settlement : Settled A
}.
Arguments mkPromise {A} _ _.
Arguments promiseId {A} _.
Arguments settlement {A} _.

(** The rpc hook closes over the worker id and the plugin name. *)
Record PluginRpcHook := mkHook {
  hookWorkerId : string;
  hookTarget : string
}.

Record IOcapLdCapability := mkCapability {
  parentCapability : string
}.

(** What [fetch] resolves to: [json()] and [text()] settle on their own. *)
Record Response := mkResponse {
  json : Settled JsValue;
  text : Settled string
}.

Inductive Event :=
| EvFetch (url : string)
| EvRequestPermissions (domain : string) (requested : JsValue)
| EvCreatePluginWorker (hostname : string)
| EvStartPlugin (workerId pluginName : string) (sourceCode : JsValue)
| EvTerminateWorkerOf (pluginName : string)
| EvTerminateAll
| EvCloseAllConnections (domain : string)
| EvRemoveAllPermissionsFor (pluginIds : list string)
| EvHookSet (pluginName : string)
| EvHookDelete (pluginName : string)
| EvStoreUpdate
| EvMemStoreUpdate.

Record Controller := mkController {
  store : PluginControllerState;
  memStore : PluginControllerMemState;
  _pluginRpcHooks : gmap string PluginRpcHook;
  _pluginsBeingAdded : gmap string (Promise JsObject);
  promiseCount : nat;
  trace : list Event
}.

Definition with_store (f : PluginControllerState → PluginControllerState)
    (c : Controller) : Controller :=
  mkController (f (store c)) (memStore c) (_pluginRpcHooks c)
    (_pluginsBeingAdded c) (promiseCount c) (trace c).

Definition with_memStore
    (f : PluginControllerMemState → PluginControllerMemState)
    (c : Controller) : Controller :=
  mkController (store c) (f (memStore c)) (_pluginRpcHooks c)
    (_pluginsBeingAdded c) (promiseCount c) (trace c).

Definition with_hooks
    (f : gmap string PluginRpcHook → gmap string PluginRpcHook)
    (c : Controller) : Controller :=
  mkController (store c) (memStore c) (f (_pluginRpcHooks c))
    (_pluginsBeingAdded c) (promiseCount c) (trace c).

Definition with_beingAdded
    (f : gmap string (Promise JsObject) → gmap string (Promise JsObject))
    (c : Controller) : Controller :=
  mkController (store c) (memStore c) (_pluginRpcHooks c)
    (f (_pluginsBeingAdded c)) (promiseCount c) (trace c).

Definition emit (e : Event) (c : Controller) : Controller :=
  mkController (store c) (memStore c) (_pluginRpcHooks c)
    (_pluginsBeingAdded c) (promiseCount c) (trace c ++ [e]).

(** ** The injected collaborators *)

Record Collaborators := mkCollaborators {
  fetch : string → Settled Response;
  requestPermissions : string → JsValue → Settled (list IOcapLdCapability);
  hasPermission : string → string → bool;
  createPluginWorker : string → Settled string;
  startPlugin : string → string → JsValue → Settled unit
}.

(** ** Asynchronous computations *)

Definition Async (A : Type) : Type := Controller → Settled A * Controller.

Definition ret {A} (a : A) : Async A := λ c, (Fulfilled a, c).

Definition throw {A} (e : JsError) : Async A := λ c, (Rejected e, c).

Definition bind {A B} (m : Async A) (k : A → Async B) : Async B :=
  λ c, match m c with
       | (Fulfilled a, c') => k a c'
       | (Rejected e, c') => (Rejected e, c')
       end.

#[global] Instance Async_ret : MRet Async := @ret.
#[global] Instance Async_bind : MBind Async := λ A B k m, bind m k.

(** [await p] on a value that has settled. *)
Definition await {A} (o : Settled A) : Async A := λ c, (o, c).

(** A synchronous statement inside an async body. *)
Definition exec (f : Controller → Controller) : Async unit :=
  λ c, (Fulfilled tt, f c).

Definition try_catch {A} (m : Async A) (h : JsError → Async A) : Async A :=
  λ c, match m c with
       | (Fulfilled a, c') => (Fulfilled a, c')
       | (Rejected e, c') => h e c'
       end.

Definition try_finally {A} (m : Async A) (f : Controller → Controller) : Async A :=
  λ c, let '(o, c') := m c in (o, f c').

(** Calling an async function without awaiting it: the caller receives a
    promise; a failure inside the body rejects that promise and is never
    thrown at the call site. *)
Inductive Completion (A : Type) :=
| Normal (a : A)
| Throw (e : JsError).
Arguments Normal {A} a.
Arguments Throw {A} e.

Definition call_async {A} (m : Async A) (c : Controller)
    : Completion (Promise A) * Controller :=
  let '(o, c') := m c in
  (Normal (mkPromise (promiseCount c') o),
   mkController (store c') (memStore c') (_pluginRpcHooks c')
     (_pluginsBeingAdded c') (S (promiseCount c')) (trace c')).

(** ** State store and projection *)

(** [{ ...plugins[name] }] with [sourceCode] deleted, for every key. *)
Definition _filterMemStoreState (newState : PartialState) : PartialMemState :=
  {| patchInlinePluginIsRunning := None;
     patchMemPlugins :=
       Some (match patchPlugins newState with
             | Some ps => delete "sourceCode" <$> ps
             | None => ∅
             end);
     patchMemPluginStates := patchPluginStates newState |}.

Definition updateState (newState : PartialState) (c : Controller) : Controller :=
  let c1 := emit EvStoreUpdate (with_store (store_updateState newState) c) in
  emit EvMemStoreUpdate
    (with_memStore (memStore_updateState (_filterMemStoreState newState)) c1).

Definition get (pluginName : string) (c : Controller) : option JsObject :=
  read_property ∅ (plugins (store c)) pluginName.

(** The reduce over [Object.keys(plugin)] keeps the keys of the set. *)
Definition getSerializable (pluginName : string) (c : Controller)
    : option JsObject :=
  match get pluginName c with
  | Some plugin =>
      Some (filter (λ kv, kv.1 ∈ SERIALIZABLE_PLUGIN_PROPERTIES) plugin)
  | None => None
  end.

Definition getPluginState (pluginName : string) (c : Controller) : JsValue :=
  default JUndefined
    (read_property (JObject ∅) (pluginStates (store c)) pluginName).

Definition updatePluginState (pluginName : string) (newPluginState : JsValue)
    (c : Controller) : Controller :=
  let newPluginStates := <[pluginName := newPluginState]> (pluginStates (store c)) in
  updateState (mkPartialState None (Some newPluginStates)) c.

Definition getRpcMessageHandler (pluginName : string) (c : Controller)
    : option PluginRpcHook :=
  _pluginRpcHooks c !! pluginName.

(** ** Results of the install pipeline *)

(** [SerializablePlugin | { error }]: the first case carries what
    [getSerializable] returned ([null] is [None]); the envelope records the
    error it was built from ([serializeError] is kept abstract). *)
Inductive ProcessPluginReturnType :=
| Serializable (view : option JsObject)
| ErrorEnvelope (error : JsError).

(** [{ ...r }]: spreading [null] gives the empty object. *)
Definition spread_result (r : ProcessPluginReturnType) : ProcessPluginReturnType :=
  match r with
  | Serializable None => Serializable (Some ∅)
  | _ => r
  end.

(** [ethErrors.provider.unauthorized(message)]: code 4100. *)
Definition unauthorized (message : string) : JsError :=
  EthereumProviderError 4100 message.

Definition not_authorized_message (pluginName : string) : string :=
  "Not authorized to install plugin '" ++ pluginName ++
  "'. Request the permission for the plugin before attempting to install it.".

(** What the trace gains when one plugin is torn down. *)
Definition removal_events (name : string) : list Event :=
  [EvHookDelete name; EvCloseAllConnections name; EvTerminateWorkerOf name].

Section controller.

Variable E : Collaborators.

(** The table of built-in payloads, [INLINE_PLUGINS[key]]. *)
Variable INLINE_PLUGINS : string → JsValue.

(** *** Hooks and record updates *)

Definition _createPluginHooks (pluginName workerId : string)
    (c : Controller) : Controller :=
  emit (EvHookSet pluginName)
    (with_hooks (insert pluginName (mkHook workerId pluginName)) c).

Definition _removePluginHooks (pluginName : string) (c : Controller) : Controller :=
  emit (EvHookDelete pluginName) (with_hooks (delete pluginName) c).

(** [{ ...plugin, [property]: value }], where spreading a missing record
    contributes no key. *)
Definition _updatePlugin (pluginName property : string) (value : JsValue)
    (c : Controller) : Controller :=
  let plugins0 := plugins (store c) in
  let plugin := default ∅ (plugins0 !! pluginName) in
  let newPlugin := <[property := value]> plugin in
  let newPlugins := <[pluginName := newPlugin]> plugins0 in
  updateState (mkPartialState (Some newPlugins) None) c.

Definition _setPluginToActive (pluginName : string) : Controller → Controller :=
  _updatePlugin pluginName "isActive" (JBool true).

Definition _setPluginToInActive (pluginName : string) : Controller → Controller :=
  _updatePlugin pluginName "isActive" (JBool false).

(** *** Start *)

Definition _startPluginInWorker (pluginName : string) (sourceCode : JsValue)
    : Async unit :=
  workerId ← (exec (emit (EvCreatePluginWorker pluginName));;
              await (createPluginWorker E pluginName));
  exec (_createPluginHooks pluginName workerId);;
  exec (emit (EvStartPlugin workerId pluginName sourceCode));;
  await (startPlugin E workerId pluginName sourceCode);;
  exec (_setPluginToActive pluginName).

(** *** Removal and reset *)

(** The body of the [forEach] in [removePlugins], on the controller and
    the two copies [newPlugins] and [newPluginStates]. *)
Definition removePlugins_each
    (acc : Controller * gmap string JsObject * gmap string JsValue)
    (name : string) : Controller * gmap string JsObject * gmap string JsValue :=
  let '(c0, newPlugins, newPluginStates) := acc in
  (emit (EvTerminateWorkerOf name)
     (emit (EvCloseAllConnections name)
        (_removePluginHooks name c0)),
   delete name newPlugins,
   delete name newPluginStates).

Definition removePlugins (pluginNames : list string) (c : Controller) : Controller :=
  let state := store c in
  let '(c1, newPlugins, newPluginStates) :=
    foldl removePlugins_each (c, plugins state, pluginStates state) pluginNames in
  let c2 := emit (EvRemoveAllPermissionsFor pluginNames) c1 in
  updateState (mkPartialState (Some newPlugins) (Some newPluginStates)) c2.

Definition removePlugin (pluginName : string) : Controller → Controller :=
  removePlugins [pluginName].

(** The ids are enumerated in the order of the map, which stands for the
    order of [Object.keys]. *)
Definition clearState (c : Controller) : Controller :=
  let c1 := with_hooks (λ _, ∅) c in
  let pluginNames := (map_to_list (plugins (store c1))).*1 in
  let c2 := updateState (mkPartialState (Some ∅) (Some ∅)) c1 in
  let c3 := foldl (λ c0 name, emit (EvCloseAllConnections name) c0) c2 pluginNames in
  let c4 := emit (EvRemoveAllPermissionsFor pluginNames) (emit EvTerminateAll c3) in
  emit EvMemStoreUpdate
    (with_memStore (memStore_updateState (mkPartialMemState (Some false) None None)) c4).

(** *** Add *)

(** [const { web3Wallet: { bundle, initialPermissions } } = pluginJson]:
    a nested pattern throws when the value it destructures is [undefined]
    or [null]. *)
Definition destructure_manifest (pluginJson : JsValue)
    : Settled (JsValue * JsValue) :=
  match js_get pluginJson "web3Wallet" with
  | Rejected e => Rejected e
  | Fulfilled web3Wallet =>
      match js_get web3Wallet "bundle", js_get web3Wallet "initialPermissions" with
      | Fulfilled bundle, Fulfilled initialPermissions =>
          Fulfilled (bundle, initialPermissions)
      | Rejected e, _ | _, Rejected e => Rejected e
      end
  end.

Definition do_fetch (url : string) : Async Response :=
  exec (emit (EvFetch url));; await (fetch E url).

Definition _add (pluginName : string) (sourceUrl : option string)
    : Async JsObject :=
  let _sourceUrl :=
    match sourceUrl with
    | Some u => if String.eqb u "" then pluginName else u
    | None => pluginName
    end in
  if String.eqb pluginName "" then
    throw (Error ("Invalid plugin name: " ++ pluginName))
  else
    plugin ← try_catch
      (pluginSource ← do_fetch _sourceUrl;
       pluginJson ← await (json pluginSource);
       '(bundle, initialPermissions) ← await (destructure_manifest pluginJson);
       bundleUrl ← await (js_get bundle "url");
       pluginBundle ← do_fetch (js_to_string bundleUrl);
       sourceCode ← await (text pluginBundle);
       mret ({[ "name" := JString pluginName;
                "initialPermissions" := initialPermissions;
                "permissionName" := JString (PLUGIN_PREFIX ++ pluginName);
                "sourceCode" := JString sourceCode;
                "isActive" := JBool false ]} : JsObject))
      (λ err, throw (Error ("Problem loading plugin " ++ pluginName ++ ": "
                            ++ err_message err)));
    ((λ c,
      let pluginsState := plugins (store c) in
      (* restore relevant plugin state if it exists: { ...old, ...plugin } *)
      let plugin' :=
        match pluginsState !! pluginName with
        | Some old => plugin ∪ old
        | None => plugin
        end in
      (Fulfilled plugin',
       updateState
         (mkPartialState (Some (<[pluginName := plugin']> pluginsState)) None) c))
     : Async JsObject).

(** [add]: the pending promise when there is one, else a new [_add]; the
    [sourceUrl] parameter is not passed on. *)
Definition add (pluginName : string) (sourceUrl : option string)
    (c : Controller) : Completion (Promise JsObject) * Controller :=
  match _pluginsBeingAdded c !! pluginName with
  | Some pending => (Normal pending, c)
  | None =>
      match call_async (_add pluginName None) c with
      | (Normal p, c') => (Normal p, with_beingAdded (insert pluginName p) c')
      | (Throw e, c') => (Throw e, c')
      end
  end.

(** [await this.add(pluginName)] inside an async body. *)
Definition await_add (pluginName : string) : Async JsObject :=
  λ c, match add pluginName None c with
       | (Normal p, c') => (settlement p, c')
       | (Throw e, c') => (Rejected e, c')
       end.

(** *** Authorize *)

Definition authorize (pluginName : string) : Async (list string) :=
  λ c,
    match get pluginName c with
    | None =>
        (Rejected (TypeError
           "Cannot destructure property 'initialPermissions' of 'plugin' as it is undefined."), c)
    | Some plugin =>
        let initialPermissions := field plugin "initialPermissions" in
        match js_keys_length initialPermissions with
        | Rejected e => (Rejected e, c)
        | Fulfilled O => (Fulfilled [], c)
        | Fulfilled (S _) =>
            try_finally
              (approvedPermissions ←
                 (exec (emit (EvRequestPermissions pluginName initialPermissions));;
                  await (requestPermissions E pluginName initialPermissions));
               mret (parentCapability <$> approvedPermissions))
              (with_beingAdded (delete pluginName)) c
        end
    end.

(** *** The install pipeline *)

Definition processRequestedPlugin (pluginName : string)
    : Async ProcessPluginReturnType :=
  λ c,
    let plugin := get pluginName c in
    if js_truthy (default JUndefined (plugin ≫= (.!! "isActive"))) then
      (Fulfilled (Serializable (getSerializable pluginName c)), c)
    else
      try_catch
        (added ← await_add pluginName;
         let sourceCode := field added "sourceCode" in
         authorize pluginName;;
         _startPluginInWorker pluginName sourceCode;;
         ((λ c', (Fulfilled (Serializable (getSerializable pluginName c')), c'))
          : Async ProcessPluginReturnType))
        (λ err, mret (ErrorEnvelope err)) c.

(** Each requested name in turn; the result object gets one assignment
    per name.  The installations are run one after the other, where the
    source lets them overlap; an installation depends on its own id
    only. *)
Fixpoint installEach (origin : string) (pluginNames : list string)
    (result : JsDict ProcessPluginReturnType)
    : Async (JsDict ProcessPluginReturnType) :=
  match pluginNames with
  | [] => mret result
  | pluginName :: rest =>
      let permissionName := PLUGIN_PREFIX ++ pluginName in
      if hasPermission E origin permissionName then
        r ← processRequestedPlugin pluginName;
        installEach origin rest (assign pluginName (spread_result r) result)
      else
        installEach origin rest
          (assign pluginName
             (ErrorEnvelope (unauthorized (not_authorized_message pluginName)))
             result)
  end.

Definition installPlugins (origin : string) (requestedPlugins : JsObject)
    : Async (JsDict ProcessPluginReturnType) :=
  installEach origin (map_to_list requestedPlugins).*1 dict_empty.

(** *** Restart on boot, inline mode *)

(** [_startPluginInWorker] is called, not awaited, inside the [try].  The
    [name] of a record, which the source passes on as it is, is taken as a
    string (its coercion stands in for a name that is none); the starts
    are run one after the other in the order of the map, where the source
    lets them overlap in the order of [Object.values]. *)
Definition runExistingPlugins (c : Controller) : Controller :=
  let plugins0 := plugins (store c) in
  if bool_decide (0 < size plugins0) then
    foldl (λ c0 (plugin : JsObject),
             let pluginName := js_to_string (field plugin "name") in
             let sourceCode := field plugin "sourceCode" in
             match call_async (_startPluginInWorker pluginName sourceCode) c0 with
             | (Normal _, c1) => c1
             | (Throw _, c1) => removePlugin pluginName c1
             end)
          c (map_to_list plugins0).*2
  else c.

Definition runInlinePlugin (inlinePluginName : option string) (c : Controller)
    : Completion unit * Controller :=
  let key := default "IDLE" inlinePluginName in
  match call_async (_startPluginInWorker "inlinePlugin" (INLINE_PLUGINS key)) c with
  | (Normal _, c1) =>
      (Normal tt,
       emit EvMemStoreUpdate
         (with_memStore
            (memStore_updateState (mkPartialMemState (Some true) None None)) c1))
  | (Throw e, c1) => (Throw e, c1)
  end.

Definition removeInlinePlugin (c : Controller) : Controller :=
  removePlugin "inlinePlugin"
    (emit EvMemStoreUpdate
       (with_memStore
          (memStore_updateState (mkPartialMemState (Some false) None None)) c)).

End controller.

(** *** Construction *)

Definition emptyController : Controller :=
  mkController (mkState ∅ ∅) (mkMemState false ∅ ∅) ∅ ∅ 0 [].

(** [{ plugins: {}, pluginStates: {}, ...initState }] is written through
    [updateState]. *)
Definition construct (initState : PartialState) : Controller :=
  updateState
    (mkPartialState (Some (default ∅ (patchPlugins initState)))
                    (Some (default ∅ (patchPluginStates initState))))
    emptyController.

(** *** Permitted plugins *)

(** [s.replace(PLUGIN_PREFIX_REGEX, '')]: the regular expression is the
    prefix anchored at the start, so a string that starts with the prefix
    loses it and any other string is returned as it is. *)
Definition replace_PLUGIN_PREFIX (s : string) : string :=
  if String.prefix PLUGIN_PREFIX s then
    String.substring (String.length PLUGIN_PREFIX)
      (String.length s - String.length PLUGIN_PREFIX) s
  else s.

(** [plugin || { error: serializeError(new Error(...)) }]: an object is
    truthy, [null] is not. *)
Definition permitted_entry (plugin : option JsObject) : ProcessPluginReturnType :=
  match plugin with
  | Some view => Serializable (Some view)
  | None => ErrorEnvelope (Error "Plugin permitted but not installed.")
  end.

(** The reduce over [this._getPermissions(origin)]; [_getPermissions] is
    the injected [getPermissions]. *)
Definition getPermittedPlugins
    (_getPermissions : string → list IOcapLdCapability)
    (origin : string) (c : Controller) : JsDict ProcessPluginReturnType :=
  foldl (λ permittedPlugins perm,
           if String.prefix PLUGIN_PREFIX (parentCapability perm) then
             let pluginName := replace_PLUGIN_PREFIX (parentCapability perm) in
             let plugin := getSerializable pluginName c in
             assign pluginName (permitted_entry plugin) permittedPlugins
           else permittedPlugins)
        dict_empty (_getPermissions origin).

(** *** The callback of [runExistingPlugins] *)

(** The body of the [forEach] in [runExistingPlugins], on its own, with
    the same reading of [name] and of the unawaited start. *)
Definition runExistingPlugins_each (E : Collaborators) (c0 : Controller)
    (plugin : JsObject) : Controller :=
  let pluginName := js_to_string (field plugin "name") in
  let sourceCode := field plugin "sourceCode" in
  match call_async (_startPluginInWorker E pluginName sourceCode) c0 with
  | (Normal _, c1) => c1
  | (Throw _, c1) => removePlugin pluginName c1
  end.

(** *** Frames *)

(** Between two controllers, nothing that belongs to [id] has changed: its
    record, its rpc hook, its pending marker and its plugin state. *)
Definition untouched (id : string) (c c' : Controller) : Prop :=
  get id c' = get id c
  ∧ getRpcMessageHandler id c' = getRpcMessageHandler id c
  ∧ _pluginsBeingAdded c' !! id = _pluginsBeingAdded c !! id
  ∧ getPluginState id c' = getPluginState id c.


(** ** Scenarios

    Concrete collaborators and documents used to run the controller. *)

(** A manifest whose bundle lives at ["u"], with or without the
    [initialPermissions] field. *)
Definition manifest (initialPermissions : option JsValue) : JsValue :=
  let bundle : JsObject := {[ "bundle" := JObject {[ "url" := JString "u" ]} ]} in
  JObject {[ "web3Wallet" :=
    JObject (match initialPermissions with
             | Some requested => <["initialPermissions" := requested]> bundle
             | None => bundle
             end) ]}.

(** The bundle url serves the text ["code"], any other url the manifest. *)
Definition scenarioFetch (initialPermissions : option JsValue) (url : string)
    : Settled Response :=
  if String.eqb url "u" then
    Fulfilled (mkResponse (Rejected (Error "Unexpected token")) (Fulfilled "code"))
  else
    Fulfilled (mkResponse (Fulfilled (manifest initialPermissions))
                          (Fulfilled "{}")).

(** Workers are always created; [startOk] says which plugins start,
    [permitted] which capability names every origin holds. *)
Definition scenario (initialPermissions : option JsValue)
    (startOk permitted : string → bool) : Collaborators :=
  mkCollaborators
    (scenarioFetch initialPermissions)
    (λ _ _, Fulfilled [mkCapability "eth_accounts"])
    (λ _ permissionName, permitted permissionName)
    (λ hostname, Fulfilled ("worker-" ++ hostname))
    (λ _ pluginName _,
       if startOk pluginName then Fulfilled tt
       else Rejected (Error "start failed")).

(** The same collaborators, except that no worker can be created. *)
Definition withoutWorkers (E : Collaborators) : Collaborators :=
  mkCollaborators (fetch E) (requestPermissions E) (hasPermission E)
    (λ _, Rejected (Error "no worker")) (startPlugin E).

Definition always (_ : string) : bool := true.
Definition never (_ : string) : bool := false.


(** The record [add] writes for ["foo"] in [scenario]. *)
Definition fooRecord (initialPermissions : JsValue) (isActive : bool) : JsObject :=
  {[ "name" := JString "foo";
     "initialPermissions" := initialPermissions;
     "permissionName" := JString "wallet_plugin_foo";
     "sourceCode" := JString "code";
     "isActive" := JBool isActive ]}.

Definition fooView (initialPermissions : JsValue) : JsObject :=
  {[ "name" := JString "foo";
     "initialPermissions" := initialPermissions;
     "permissionName" := JString "wallet_plugin_foo" ]}.

Definition persisted (pluginName : string) : JsObject :=
  {[ "name" := JString pluginName;
     "initialPermissions" := JObject ∅;
     "permissionName" := JString (PLUGIN_PREFIX ++ pluginName);
     "sourceCode" := JString "code";
     "isActive" := JBool false ]}.

(** A patch that writes the active record of ["foo"]. *)
Definition fooPatch : PartialState :=
  mkPartialState (Some {[ "foo" := fooRecord (JObject ∅) true ]}) None.

(** Every plugin starts, every capability is held. *)
Definition permissive : Collaborators := scenario (Some (JObject ∅)) always always.

(** The manifest has no [initialPermissions]. *)
Definition noPermissionsField : Collaborators := scenario None always always.

(** No start command succeeds. *)
Definition startFails : Collaborators := scenario (Some (JObject ∅)) never always.

(** Only the plugin ["a"] starts. *)
Definition onlyAStarts : Collaborators := scenario (Some (JObject ∅)) (String.eqb "a") always.


(** A controller booted from a persisted store holding ["a"] and ["b"]. *)
Definition bootedAB : Controller :=
  construct (mkPartialState
               (Some {[ "a" := persisted "a"; "b" := persisted "b" ]}) None).


(** The controller after [processRequestedPlugin("foo")] ran to success. *)
Definition afterInstallFoo : Controller :=
  (processRequestedPlugin permissive "foo" emptyController).2.

(** The controller after [add("foo")] on a fresh instance. *)
Definition afterAddFoo : Controller :=
  (add permissive "foo" None emptyController).2.

(** The same, from a manifest without [initialPermissions]. *)
Definition afterAddFooNoField : Controller :=
  (add noPermissionsField "foo" None emptyController).2.

(** [processRequestedPlugin("foo")] when the start command fails, and when
    no worker can be created. *)
Definition failedStart : Settled ProcessPluginReturnType * Controller :=
  processRequestedPlugin startFails "foo" emptyController.

Definition failedCreate : Settled ProcessPluginReturnType * Controller :=
  processRequestedPlugin (withoutWorkers permissive) "foo" emptyController.

(** [runExistingPlugins()] over [{a, b}] when only a starts. *)
Definition afterBoot : Controller := runExistingPlugins onlyAStarts bootedAB.

(** The manifest asks for one permission, so [authorize] prompts. *)
Definition prompting : Collaborators :=
  scenario (Some (JObject {[ "eth_accounts" := JObject ∅ ]})) always always.

(** The network is down. *)
Definition offline : Collaborators :=
  mkCollaborators (λ _, Rejected (Error "Failed to fetch"))
    (requestPermissions permissive) (hasPermission permissive)
    (createPluginWorker permissive) (startPlugin permissive).

(** The controller after [add("foo")] when the manifest asks for a
    permission. *)
Definition afterAddFooPrompting : Controller :=
  (add prompting "foo" None emptyController).2.

(** The capabilities of an origin: one plugin that is installed in
    [afterInstallFoo], one that is not, and one capability of another
    kind. *)
Definition someCapabilities (_ : string) : list IOcapLdCapability :=
  [mkCapability "wallet_plugin_foo"; mkCapability "eth_accounts";
   mkCapability "wallet_plugin_bar"].

(** ** Reading and assigning properties *)

Lemma read_property_own {A} (builtin : A) (o : gmap string A) (k : string) (v : A) :
  o !! k = Some v → read_property builtin o k = Some v.
Proof. unfold read_property. by intros ->. Qed.

Lemma read_property_plain {A} (builtin : A) (o : gmap string A) (k : string) :
  k ∉ OBJECT_PROTOTYPE_KEYS → read_property builtin o k = o !! k.
Proof.
  intros Hk. unfold read_property. destruct (o !! k); [done|].
  by rewrite bool_decide_eq_false_2.
Qed.

Lemma read_property_congr {A} (builtin : A) (o o' : gmap string A) (k : string) :
  o !! k = o' !! k → read_property builtin o k = read_property builtin o' k.
Proof. unfold read_property. by intros ->. Qed.

Lemma read_property_insert_eq {A} (builtin : A) (o : gmap string A)
    (k : string) (v : A) :
  read_property builtin (<[k := v]> o) k = Some v.
Proof. apply read_property_own, lookup_insert_eq. Qed.

Lemma read_property_insert_ne {A} (builtin : A) (o : gmap string A)
    (k k' : string) (v : A) :
  k ≠ k' → read_property builtin (<[k := v]> o) k' = read_property builtin o k'.
Proof. intros Hne. apply read_property_congr. by apply lookup_insert_ne. Qed.

Lemma read_property_delete_ne {A} (builtin : A) (o : gmap string A) (k k' : string) :
  k ≠ k' → read_property builtin (delete k o) k' = read_property builtin o k'.
Proof. intros Hne. apply read_property_congr. by apply lookup_delete_ne. Qed.



Lemma getPluginState_congr (pluginName : string) (c c' : Controller) :
  pluginStates (store c) !! pluginName = pluginStates (store c') !! pluginName →
  getPluginState pluginName c = getPluginState pluginName c'.
Proof. unfold getPluginState. intros H. by rewrite (read_property_congr _ _ _ _ H). Qed.

(** A record that is read is truthy on a field only if it owns it. *)
Lemma get_default (pluginName : string) (c : Controller) :
  default ∅ (get pluginName c) = default ∅ (plugins (store c) !! pluginName).
Proof.
  unfold get, read_property. destruct (plugins (store c) !! pluginName); [done|].
  by case_bool_decide.
Qed.

Lemma lookup_assign_eq {A} (k : string) (v : A) (o : JsDict A) :
  assign k v o !! k = Some v.
Proof.
  unfold assign, lookup, JsDict_lookup.
  destruct (String.eqb k "__proto__") eqn:Hk; simpl; rewrite ?Hk; [done|].
  apply lookup_insert_eq.
Qed.

Lemma lookup_assign_ne {A} (k k' : string) (v : A) (o : JsDict A) :
  k ≠ k' → assign k v o !! k' = o !! k'.
Proof.
  intros Hne. unfold assign, lookup, JsDict_lookup.
  destruct (String.eqb_spec k "__proto__") as [->|Hk]; simpl.
  - destruct (String.eqb_spec k' "__proto__") as [->|]; [done|done].
  - destruct (String.eqb_spec k' "__proto__"); [done|].
    by apply lookup_insert_ne.
Qed.

Lemma entries_assign {A} (k : string) (v : A) (o : JsDict A) :
  entries (assign k v o) =
  if decide (k = "__proto__") then entries o else <[k := v]> (entries o).
Proof.
  unfold assign. destruct (String.eqb_spec k "__proto__") as [->|Hk].
  - by rewrite decide_True.
  - by rewrite decide_False.
Qed.

(** ** The install pipeline on the scenarios *)

Example add_foo_record :
  add permissive "foo" None emptyController =
  (Normal (mkPromise 0 (Fulfilled (fooRecord (JObject ∅) false))), afterAddFoo)
  ∧ get "foo" afterAddFoo = Some (fooRecord (JObject ∅) false)
  ∧ trace afterAddFoo =
    [EvFetch "foo"; EvFetch "u"; EvStoreUpdate; EvMemStoreUpdate].
Proof. split; [|split]; reflexivity. Qed.

Example authorize_foo_without_prompt :
  authorize permissive "foo" afterAddFoo = (Fulfilled [], afterAddFoo).
Proof. reflexivity. Qed.

Example processRequestedPlugin_foo :
  (processRequestedPlugin permissive "foo" emptyController).1 =
  Fulfilled (Serializable (Some (fooView (JObject ∅))))
  ∧ get "foo" afterInstallFoo = Some (fooRecord (JObject ∅) true)
  ∧ getRpcMessageHandler "foo" afterInstallFoo = Some (mkHook "worker-foo" "foo").
Proof. split; [|split]; reflexivity. Qed.

(** ** The serializable view (C1) *)


Lemma serializable_not_isActive : "isActive" ∉ SERIALIZABLE_PLUGIN_PROPERTIES.
Proof. unfold SERIALIZABLE_PLUGIN_PROPERTIES. set_solver. Qed.

Lemma serializable_lookup (plugin : JsObject) (k : string) :
  filter (λ kv, kv.1 ∈ SERIALIZABLE_PLUGIN_PROPERTIES) plugin !! k =
  if decide (k ∈ SERIALIZABLE_PLUGIN_PROPERTIES) then plugin !! k else None.
Proof.
  case_decide as Hk.
  - destruct (plugin !! k) as [v|] eqn:Hv.
    + by apply map_lookup_filter_Some.
    + apply map_lookup_filter_None. left. done.
  - apply map_lookup_filter_None. right. intros v _. done.
Qed.





(** ** The memory projection (C2) *)

Lemma updateState_store (newState : PartialState) (c : Controller) :
  store (updateState newState c) = store_updateState newState (store c).
Proof. reflexivity. Qed.

Lemma updateState_memPlugins (newState : PartialState) (c : Controller) :
  memPlugins (memStore (updateState newState c)) =
  delete "sourceCode" <$> default ∅ (patchPlugins newState).
Proof.
  unfold updateState, _filterMemStoreState. simpl.
  destruct (patchPlugins newState); simpl; [done|]. by rewrite fmap_empty.
Qed.

Lemma updateState_hooks (newState : PartialState) (c : Controller) :
  _pluginRpcHooks (updateState newState c) = _pluginRpcHooks c.
Proof. reflexivity. Qed.

Lemma updateState_beingAdded (newState : PartialState) (c : Controller) :
  _pluginsBeingAdded (updateState newState c) = _pluginsBeingAdded c.
Proof. reflexivity. Qed.


(** C2, as stated, fails: after the state updates of a successful install
    of ["foo"], the projected entry for ["foo"] still has [isActive], so
    its fields are not exactly the three serializable ones. *)
Lemma C2_counterexample :
  (∃ entry, memPlugins (memStore afterInstallFoo) !! "foo" = Some entry
     ∧ entry !! "isActive" = Some (JBool true)
     ∧ dom entry ≠ SERIALIZABLE_PLUGIN_PROPERTIES)
  ∧ ¬ (∀ newState c id entry,
         memPlugins (memStore (updateState newState c)) !! id = Some entry →
         dom entry = SERIALIZABLE_PLUGIN_PROPERTIES).
Proof.
  assert (Hactive :
    "isActive" ∈ dom (delete "sourceCode" (fooRecord (JObject ∅) true)))
    by (apply (bool_decide_unpack _); exact I).
  split.
  - exists (delete "sourceCode" (fooRecord (JObject ∅) true)).
    split; [reflexivity|]. split; [reflexivity|].
    intros Hdom. rewrite Hdom in Hactive. by apply serializable_not_isActive.
  - intros Hall.
    specialize (Hall fooPatch emptyController "foo"
                  (delete "sourceCode" (fooRecord (JObject ∅) true))).
    rewrite Hall in Hactive; [by apply serializable_not_isActive|].
    reflexivity.
Qed.

(** C2 (amended): after [updateState(newState)], each entry of
    [MemState.plugins] is the record of the same id in [newState.plugins]
    with [sourceCode] removed and every other field kept, [isActive]
    included; it never contains [sourceCode].  When [newState] carries
    [plugins], these are the records of the canonical store. *)
Theorem C2_memState_entries (newState : PartialState) (c : Controller)
    (id : string) (entry : JsObject) :
  memPlugins (memStore (updateState newState c)) !! id = Some entry →
  ∃ plugin,
    default ∅ (patchPlugins newState) !! id = Some plugin
    ∧ entry = delete "sourceCode" plugin
    ∧ entry !! "sourceCode" = None
    ∧ (∀ k, k ≠ "sourceCode" → entry !! k = plugin !! k)
    ∧ entry !! "isActive" = plugin !! "isActive"
    ∧ (is_Some (patchPlugins newState) →
       plugins (store (updateState newState c)) !! id = Some plugin).
Proof.
  rewrite updateState_memPlugins, lookup_fmap.
  destruct (default ∅ (patchPlugins newState) !! id) as [plugin|] eqn:Hp;
    simpl; [|done].
  intros [= <-]. exists plugin. split; [done|]. split; [done|].
  split; [apply lookup_delete_eq|].
  split; [intros k Hk; by apply lookup_delete_ne|].
  split; [by apply lookup_delete_ne|].
  intros [ps Hps]. unfold updateState, store_updateState. simpl.
  rewrite Hps in Hp |- *. done.
Qed.

Lemma C2_witness :
  ∃ plugin,
    plugins (store (updateState fooPatch emptyController)) !! "foo" = Some plugin
    ∧ memPlugins (memStore (updateState fooPatch emptyController)) !! "foo" =
      Some (delete "sourceCode" plugin).
Proof.
  assert (Hmem : memPlugins (memStore (updateState fooPatch emptyController)) !! "foo"
                 = Some (delete "sourceCode" (fooRecord (JObject ∅) true)))
    by reflexivity.
  destruct (C2_memState_entries fooPatch emptyController "foo" _ Hmem)
    as (plugin & Hp & Hentry & _ & _ & _ & Hstore).
  exists plugin. split; [apply Hstore; by eexists|]. by rewrite Hmem, Hentry.
Defined.

(** ** The pending-install marker and [authorize] (C3) *)

(** With a prompt, the marker is gone however the prompt settles. *)
Lemma authorize_prompt_clears_marker (E : Collaborators) (pluginName : string)
    (c : Controller) (plugin : JsObject) (n : nat) :
  get pluginName c = Some plugin →
  js_keys_length (field plugin "initialPermissions") = Fulfilled (S n) →
  _pluginsBeingAdded (authorize E pluginName c).2 !! pluginName = None.
Proof.
  unfold authorize. intros -> ->.
  unfold try_finally, mbind, Async_bind, bind, exec, await. simpl.
  destruct (requestPermissions E pluginName _); simpl; apply lookup_delete_eq.
Qed.

(** Without a prompt, [authorize] returns before the [try]/[finally]. *)
Lemma authorize_short_circuit (E : Collaborators) (pluginName : string)
    (c : Controller) (plugin : JsObject) :
  get pluginName c = Some plugin →
  js_keys_length (field plugin "initialPermissions") = Fulfilled 0 →
  authorize E pluginName c = (Fulfilled [], c).
Proof. unfold authorize. by intros -> ->. Qed.

(** C3: after [authorize(id)] settles the pending-install marker for id
    should be gone, the empty-[initialPermissions] short-circuit included.
    The code returns from the short-circuit before its [try]/[finally]:
    for ["foo"] added from a manifest with [initialPermissions = {}],
    [authorize("foo")] resolves to [[]] and changes nothing, the marker is
    still there, and a later [add("foo")] hands back the old promise
    without fetching.  Likewise, for a manifest without
    [initialPermissions], [authorize("foo")] rejects on [Object.keys]
    before the [try] and the marker stays. *)
Theorem C3_authorize_short_circuit_keeps_marker :
  get "foo" afterAddFoo = Some (fooRecord (JObject ∅) false)
  ∧ is_Some (_pluginsBeingAdded afterAddFoo !! "foo")
  ∧ authorize permissive "foo" afterAddFoo = (Fulfilled [], afterAddFoo)
  ∧ is_Some (_pluginsBeingAdded (authorize permissive "foo" afterAddFoo).2 !! "foo")
  ∧ add permissive "foo" None (authorize permissive "foo" afterAddFoo).2 =
    (Normal (mkPromise 0 (Fulfilled (fooRecord (JObject ∅) false))), afterAddFoo)
  ∧ get "foo" afterAddFooNoField = Some (fooRecord JUndefined false)
  ∧ authorize noPermissionsField "foo" afterAddFooNoField =
    (Rejected (TypeError "Cannot convert undefined or null to object"),
     afterAddFooNoField)
  ∧ is_Some (_pluginsBeingAdded afterAddFooNoField !! "foo").
Proof.
  assert (Hget : get "foo" afterAddFoo = Some (fooRecord (JObject ∅) false))
    by reflexivity.
  assert (Hmark : _pluginsBeingAdded afterAddFoo !! "foo" =
                  Some (mkPromise 0 (Fulfilled (fooRecord (JObject ∅) false))))
    by reflexivity.
  assert (Hauth : authorize permissive "foo" afterAddFoo = (Fulfilled [], afterAddFoo)).
  { apply (authorize_short_circuit permissive "foo" afterAddFoo _ Hget).
    reflexivity. }
  assert (Hget' : get "foo" afterAddFooNoField = Some (fooRecord JUndefined false))
    by reflexivity.
  split; [done|]. split; [by eexists|]. split; [done|].
  rewrite Hauth. simpl. split; [by eexists|].
  split; [unfold add; by rewrite Hmark|]. split; [done|].
  split.
  - unfold authorize. rewrite Hget'. reflexivity.
  - apply (bool_decide_unpack _). exact I.
Qed.

(** ** A failed start inside [processRequestedPlugin] (C4) *)

(** C4: when the start step fails during [processRequestedPlugin(id)], no
    record and no rpc hook for id should remain.  The code only converts
    the failure into an error envelope: when the start command fails, the
    record written by [add] (inactive) and the hook registered before the
    start command are both still there; when the worker cannot be created,
    the record is still there. *)
Theorem C4_failed_start_leaves_record_and_hook :
  failedStart.1 = Fulfilled (ErrorEnvelope (Error "start failed"))
  ∧ get "foo" failedStart.2 = Some (fooRecord (JObject ∅) false)
  ∧ getRpcMessageHandler "foo" failedStart.2 = Some (mkHook "worker-foo" "foo")
  ∧ failedCreate.1 = Fulfilled (ErrorEnvelope (Error "no worker"))
  ∧ get "foo" failedCreate.2 = Some (fooRecord (JObject ∅) false)
  ∧ getRpcMessageHandler "foo" failedCreate.2 = None.
Proof. do 5 (split; [reflexivity|]). reflexivity. Qed.

(** ** Restart on boot (C5) *)

(** An async call that is not awaited completes normally at the call
    site, whatever happens inside it. *)
Lemma call_async_normal {A} (m : Async A) (c : Controller) :
  ∃ p c', call_async m c = (Normal p, c') ∧ settlement p = (m c).1.
Proof. unfold call_async. destruct (m c) as [o c']. by eexists _, _. Qed.

Lemma _startPluginInWorker_keeps_records (E : Collaborators)
    (pluginName : string) (sourceCode : JsValue) (c : Controller) (id : string) :
  is_Some (get id c) →
  is_Some (get id (_startPluginInWorker E pluginName sourceCode c).2).
Proof.
  intros Hid. unfold _startPluginInWorker, mbind, Async_bind, bind, exec, await.
  simpl. destruct (createPluginWorker E pluginName) as [workerId|]; simpl; [|done].
  destruct (startPlugin E workerId pluginName sourceCode); simpl; [|done].
  unfold get in *. simpl.
  destruct (decide (pluginName = id)) as [->|Hne].
  - rewrite read_property_insert_eq. by eexists.
  - by rewrite read_property_insert_ne.
Qed.

(** No record is ever removed by [runExistingPlugins]: its [catch] needs a
    synchronous throw, which an async call does not produce. *)
Lemma runExistingPlugins_keeps_records (E : Collaborators) (c : Controller)
    (id : string) :
  is_Some (get id c) → is_Some (get id (runExistingPlugins E c)).
Proof.
  unfold runExistingPlugins. case_bool_decide as Hsize; [clear Hsize|done].
  generalize ((map_to_list (plugins (store c))).*2). intros l. revert c.
  induction l as [|plugin l IH]; intros c Hid; simpl; [done|].
  apply IH. unfold call_async.
  pose proof (_startPluginInWorker_keeps_records E
                (js_to_string (field plugin "name")) (field plugin "sourceCode")
                c id Hid) as Hkeep.
  destruct (_startPluginInWorker E _ _ c) as [o c1]. done.
Qed.

(** C5: [runExistingPlugins()] should remove a record whose start fails
    and still start the others.  Over the persisted store [{a, b}] where
    only a starts, a ends up active, but b is not removed: its record and
    its rpc hook are still there and the trace has no hook removal, no
    revocation and no update after b's start command.  The start
    is called without being awaited, so its failure never reaches the
    [catch] that calls [removePlugin]. *)
Theorem C5_runExistingPlugins_keeps_failed_record :
  (get "a" afterBoot ≫= (.!! "isActive")) = Some (JBool true)
  ∧ get "b" afterBoot = Some (persisted "b")
  ∧ getRpcMessageHandler "b" afterBoot = Some (mkHook "worker-b" "b")
  ∧ trace afterBoot =
    [EvStoreUpdate; EvMemStoreUpdate;
     EvCreatePluginWorker "a"; EvHookSet "a";
     EvStartPlugin "worker-a" "a" (JString "code");
     EvStoreUpdate; EvMemStoreUpdate;
     EvCreatePluginWorker "b"; EvHookSet "b";
     EvStartPlugin "worker-b" "b" (JString "code")].
Proof. do 3 (split; [reflexivity|]). reflexivity. Qed.

(** ** [processRequestedPlugin] always resolves (C6) *)

Lemma _startPluginInWorker_fulfilled (E : Collaborators) (pluginName : string)
    (sourceCode : JsValue) (c c' : Controller) (u : unit) :
  _startPluginInWorker E pluginName sourceCode c = (Fulfilled u, c') →
  ∃ plugin, get pluginName c' = Some plugin
            ∧ plugin !! "isActive" = Some (JBool true)
            ∧ is_Some (getRpcMessageHandler pluginName c').
Proof.
  unfold _startPluginInWorker, mbind, Async_bind, bind, exec, await. simpl.
  destruct (createPluginWorker E pluginName) as [workerId|]; simpl; [|done].
  destruct (startPlugin E workerId pluginName sourceCode); simpl; [|done].
  intros [= _ <-]. unfold get, getRpcMessageHandler. simpl.
  rewrite read_property_insert_eq, lookup_insert_eq. eexists. split; [done|].
  by rewrite lookup_insert_eq.
Qed.

Lemma getSerializable_is_Some (pluginName : string) (c : Controller) :
  is_Some (get pluginName c) → is_Some (getSerializable pluginName c).
Proof. unfold getSerializable. intros [plugin ->]. by eexists. Qed.

Lemma processRequestedPlugin_view_or_error (E : Collaborators)
    (pluginName : string) (c : Controller) :
  ∃ r c',
    processRequestedPlugin E pluginName c = (Fulfilled r, c')
    ∧ ((∃ view, r = Serializable (Some view)) ∨ (∃ err, r = ErrorEnvelope err)).
Proof.
  unfold processRequestedPlugin.
  destruct (js_truthy _) eqn:Hactive.
  - assert (Hsome : is_Some (get pluginName c)).
    { destruct (get pluginName c); [by eexists|]. simpl in Hactive. done. }
    destruct (getSerializable_is_Some _ _ Hsome) as [view Hview].
    eexists _, _. split; [done|]. rewrite Hview. left. by eexists.
  - unfold try_catch, mbind, Async_bind, bind.
    destruct (await_add E pluginName c) as [[added|e] c1];
      [|eexists _, _; split; [done|]; right; by eexists].
    destruct (authorize E pluginName c1) as [[approved|e] c2];
      [|eexists _, _; split; [done|]; right; by eexists].
    destruct (_startPluginInWorker E pluginName (field added "sourceCode") c2)
      as [[u|e] c3] eqn:Hstart;
      [|eexists _, _; split; [done|]; right; by eexists].
    apply _startPluginInWorker_fulfilled in Hstart as (plugin & Hget & _).
    destruct (getSerializable_is_Some pluginName c3) as [view Hview];
      [by eexists|].
    eexists _, _. split; [done|]. rewrite Hview. left. by eexists.
Qed.

(** The already-active short-circuit: nothing runs, nothing changes. *)
Lemma processRequestedPlugin_active (E : Collaborators) (pluginName : string)
    (c : Controller) :
  js_truthy (default JUndefined (get pluginName c ≫= (.!! "isActive"))) = true →
  processRequestedPlugin E pluginName c =
  (Fulfilled (Serializable (getSerializable pluginName c)), c).
Proof. unfold processRequestedPlugin. by intros ->. Qed.

(** C6: for every id, [processRequestedPlugin(id)] never rejects: it
    resolves to a serializable view or to an error envelope; and when the
    plugin is already active it resolves to the current serializable view
    and leaves the controller as it was (no add, authorize or start). *)
Theorem C6_processRequestedPlugin_settles (E : Collaborators)
    (pluginName : string) (c : Controller) :
  ∃ r c',
    processRequestedPlugin E pluginName c = (Fulfilled r, c')
    ∧ ((∃ view, r = Serializable (Some view)) ∨ (∃ err, r = ErrorEnvelope err))
    ∧ (js_truthy (default JUndefined (get pluginName c ≫= (.!! "isActive"))) = true →
       r = Serializable (getSerializable pluginName c) ∧ c' = c).
Proof.
  destruct (processRequestedPlugin_view_or_error E pluginName c)
    as (r & c' & Hrun & Hshape).
  exists r, c'. split; [done|]. split; [done|]. intros Hactive.
  rewrite (processRequestedPlugin_active E pluginName c Hactive) in Hrun.
  by injection Hrun as <- <-.
Qed.

Lemma C6_witness :
  processRequestedPlugin permissive "foo" afterInstallFoo =
  (Fulfilled (Serializable (getSerializable "foo" afterInstallFoo)), afterInstallFoo).
Proof.
  destruct (C6_processRequestedPlugin_settles permissive "foo" afterInstallFoo)
    as (r & c' & Hrun & _ & Hactive).
  destruct Hactive as [-> ->]; [reflexivity|]. exact Hrun.
Defined.

(** ** Deduplication of [add] (C8) *)



(** ** Removal (C9) *)

Lemma removePlugins_each_foldl (names : list string) (c c1 : Controller)
    (np np1 : gmap string JsObject) (nps nps1 : gmap string JsValue) :
  foldl removePlugins_each (c, np, nps) names = (c1, np1, nps1) →
  store c1 = store c
  ∧ memStore c1 = memStore c
  ∧ _pluginsBeingAdded c1 = _pluginsBeingAdded c
  ∧ trace c1 = (trace c ++ flat_map removal_events names)%list
  ∧ ∀ id,
      (id ∈ names → _pluginRpcHooks c1 !! id = None ∧ np1 !! id = None
                    ∧ nps1 !! id = None)
      ∧ (id ∉ names → _pluginRpcHooks c1 !! id = _pluginRpcHooks c !! id
                      ∧ np1 !! id = np !! id ∧ nps1 !! id = nps !! id).
Proof.
  revert c np nps. induction names as [|name names IH]; intros c np nps; simpl.
  - intros [= <- <- <-]. rewrite app_nil_r. repeat split; set_solver.
  - intros Hfold. apply IH in Hfold as (Hst & Hmem & Hadd & Htr & Hmaps).
    simpl in *. split; [done|]. split; [done|]. split; [done|].
    split; [rewrite Htr, <- !app_assoc; done|].
    intros id. destruct (Hmaps id) as [Hin Hout].
    destruct (decide (id ∈ names)) as [Hmem'|Hmem'].
    + split; [intros _; by apply Hin|]. by intros [_ ?]%not_elem_of_cons.
    + destruct (Hout Hmem') as (Hh & Hp & Hs). split.
      * intros [->|?]%elem_of_cons; [|done].
        rewrite Hh, Hp, Hs, !lookup_delete_eq. done.
      * intros [Hne ?]%not_elem_of_cons.
        rewrite Hh, Hp, Hs, !lookup_delete_ne by done. done.
Qed.




(** ** The [sourceUrl] argument of [add] (C10) *)

Ltac trace_extends :=
  simpl; rewrite <- ?app_assoc; simpl; by eexists.

(** [_add] starts by fetching [sourceUrl || pluginName]. *)
Lemma _add_fetches_first (E : Collaborators) (pluginName : string)
    (sourceUrl : option string) (c : Controller) :
  pluginName ≠ "" →
  let url := match sourceUrl with
             | Some u => if String.eqb u "" then pluginName else u
             | None => pluginName
             end in
  ∃ rest, trace (_add E pluginName sourceUrl c).2 =
          (trace c ++ EvFetch url :: rest)%list.
Proof.
  intros Hname url. unfold _add. fold url.
  destruct (String.eqb_spec pluginName "") as [|_]; [done|].
  unfold try_catch, do_fetch, mbind, Async_bind, bind, exec, await, throw, mret,
    Async_ret, ret.
  simpl. destruct (fetch E url) as [pluginSource|]; [|trace_extends].
  destruct (json pluginSource) as [pluginJson|]; [|trace_extends].
  destruct (destructure_manifest pluginJson) as [[bundle initialPermissions]|];
    [|trace_extends].
  destruct (js_get bundle "url") as [bundleUrl|]; [|trace_extends].
  simpl. destruct (fetch E (js_to_string bundleUrl)) as [pluginBundle|];
    [|trace_extends].
  destruct (text pluginBundle) as [sourceCode|]; [|trace_extends].
  unfold updateState. trace_extends.
Qed.

(** C10: for every pluginName and sourceUrl, [add(pluginName, sourceUrl)]
    behaves as [add(pluginName)]: the argument is not passed to [_add], so
    when an installation is started its first fetch, the manifest fetch,
    goes to the plugin id itself. *)
Theorem C10_add_ignores_sourceUrl (E : Collaborators) (pluginName : string)
    (sourceUrl : option string) (c : Controller) :
  add E pluginName sourceUrl c = add E pluginName None c
  ∧ (_pluginsBeingAdded c !! pluginName = None → pluginName ≠ "" →
     ∃ rest, trace (add E pluginName sourceUrl c).2 =
             (trace c ++ EvFetch pluginName :: rest)%list).
Proof.
  split; [done|]. intros Hmark Hname. unfold add. rewrite Hmark.
  destruct (_add_fetches_first E pluginName None c Hname) as [rest Hrest].
  unfold call_async. destruct (_add E pluginName None c) as [o c1].
  simpl in *. by exists rest.
Qed.

Lemma C10_witness :
  add permissive "foo" (Some "elsewhere") emptyController =
  add permissive "foo" None emptyController
  ∧ ∃ rest, trace (add permissive "foo" (Some "elsewhere") emptyController).2 =
            EvFetch "foo" :: rest.
Proof.
  destruct (C10_add_ignores_sourceUrl permissive "foo" (Some "elsewhere")
              emptyController)
    as [Heq Hfetch].
  split; [exact Heq|]. apply Hfetch; done.
Defined.

(** ** Per-plugin state *)

(** X1: [getPluginState] after [updatePluginState(id, v)] returns [v] for
    id and what it returned before for every other id; the plugin records
    of the canonical store are not touched and the projected
    [pluginStates] are those of the store. *)
Theorem X1_updatePluginState_roundtrip (pluginName : string)
    (newPluginState : JsValue) (c : Controller) (other : string) :
  getPluginState other (updatePluginState pluginName newPluginState c) =
    (if decide (pluginName = other) then newPluginState
     else getPluginState other c)
  ∧ plugins (store (updatePluginState pluginName newPluginState c)) =
    plugins (store c)
  ∧ memPluginStates (memStore (updatePluginState pluginName newPluginState c)) =
    pluginStates (store (updatePluginState pluginName newPluginState c)).
Proof.
  unfold getPluginState, updatePluginState. simpl.
  split; [|done]. case_decide as Hid.
  - subst. by rewrite read_property_insert_eq.
  - by rewrite read_property_insert_ne.
Qed.

(** X2: [updatePluginState] publishes an empty [plugins] map in the
    memory projection, whatever records the canonical store holds: the
    patch has no [plugins] key and [_filterMemStoreState] always sets
    [plugins], to the empty object when the patch has none. *)
Theorem X2_updatePluginState_empties_projection (pluginName : string)
    (newPluginState : JsValue) (c : Controller) :
  memPlugins (memStore (updatePluginState pluginName newPluginState c)) = ∅
  ∧ get pluginName (updatePluginState pluginName newPluginState c) =
    get pluginName c.
Proof. done. Qed.

(** ** Activation of a record *)

Lemma serializable_insert_other (plugin : JsObject) (k : string) (v : JsValue) :
  k ∉ SERIALIZABLE_PLUGIN_PROPERTIES →
  filter (λ kv, kv.1 ∈ SERIALIZABLE_PLUGIN_PROPERTIES) (<[k := v]> plugin) =
  filter (λ kv, kv.1 ∈ SERIALIZABLE_PLUGIN_PROPERTIES) plugin.
Proof.
  intros Hk. apply map_eq. intros j. rewrite !serializable_lookup.
  case_decide as Hj; [|done]. apply lookup_insert_ne. by intros ->.
Qed.

Lemma _updatePlugin_get (pluginName property : string) (value : JsValue)
    (c : Controller) (other : string) :
  get other (_updatePlugin pluginName property value c) =
  if decide (pluginName = other)
  then Some (<[property := value]> (default ∅ (get pluginName c)))
  else get other c.
Proof.
  unfold _updatePlugin. rewrite get_default. unfold get. simpl.
  case_decide as Hid.
  - subst. by rewrite read_property_insert_eq.
  - by rewrite read_property_insert_ne.
Qed.

(** X3: [_setPluginToActive(id)] sets [isActive] to [true] and keeps the
    other fields of the record, so the serializable view of an existing
    record is the same before and after; for an id without a record it
    creates the record [{isActive: true}], whose serializable view is
    empty; no other id is affected. *)
Theorem X3_setPluginToActive_record (pluginName other : string) (c : Controller) :
  get pluginName (_setPluginToActive pluginName c) =
    Some (<["isActive" := JBool true]> (default ∅ (get pluginName c)))
  ∧ getSerializable pluginName (_setPluginToActive pluginName c) =
    Some (default ∅ (getSerializable pluginName c))
  ∧ (pluginName ≠ other →
     get other (_setPluginToActive pluginName c) = get other c).
Proof.
  unfold _setPluginToActive. split; [|split].
  - rewrite _updatePlugin_get. by rewrite decide_True.
  - unfold getSerializable. rewrite _updatePlugin_get, decide_True by done.
    rewrite (serializable_insert_other _ _ _ serializable_not_isActive).
    destruct (get pluginName c); simpl; [done|]. by rewrite map_filter_empty.
  - intros Hne. rewrite _updatePlugin_get. by rewrite decide_False.
Qed.

Lemma X3_witness :
  get "foo" (_setPluginToActive "inlinePlugin" afterAddFoo) = get "foo" afterAddFoo.
Proof.
  apply (X3_setPluginToActive_record "inlinePlugin" "foo" afterAddFoo). done.
Defined.

(** ** What [_add] does to the controller *)

(** The five fields of the record [_add] constructs. *)
Lemma constructed_record_lookup (pluginName sourceCode : string)
    (initialPermissions : JsValue) :
  let plugin : JsObject :=
    {[ "name" := JString pluginName;
       "initialPermissions" := initialPermissions;
       "permissionName" := JString (PLUGIN_PREFIX ++ pluginName);
       "sourceCode" := JString sourceCode;
       "isActive" := JBool false ]} in
  plugin !! "name" = Some (JString pluginName)
  ∧ plugin !! "initialPermissions" = Some initialPermissions
  ∧ plugin !! "permissionName" = Some (JString (PLUGIN_PREFIX ++ pluginName))
  ∧ plugin !! "sourceCode" = Some (JString sourceCode)
  ∧ plugin !! "isActive" = Some (JBool false)
  ∧ dom plugin = {[ "name"; "initialPermissions"; "permissionName";
                    "sourceCode"; "isActive" ]}.
Proof.
  intros plugin. subst plugin. do 5 (split; [by simplify_map_eq|]).
  rewrite !dom_insert_L, dom_singleton_L. set_solver.
Qed.

(** [_add] either refuses the empty name at once, or fails while loading
    and then only the trace has grown, or writes the constructed record
    merged over the previous one. *)
Lemma _add_cases (E : Collaborators) (pluginName : string)
    (sourceUrl : option string) (c : Controller) :
  (pluginName = ""
   ∧ _add E pluginName sourceUrl c =
     (Rejected (Error ("Invalid plugin name: " ++ pluginName)), c))
  ∨ (pluginName ≠ ""
     ∧ ∃ c1,
         ((∃ msg, _add E pluginName sourceUrl c =
                  (Rejected (Error ("Problem loading plugin " ++ pluginName
                                    ++ ": " ++ msg)), c1))
          ∨ (∃ initialPermissions sourceCode,
               let plugin : JsObject :=
                 {[ "name" := JString pluginName;
                    "initialPermissions" := initialPermissions;
                    "permissionName" := JString (PLUGIN_PREFIX ++ pluginName);
                    "sourceCode" := JString sourceCode;
                    "isActive" := JBool false ]} in
               let plugin' := match plugins (store c) !! pluginName with
                              | Some old => plugin ∪ old
                              | None => plugin
                              end in
               _add E pluginName sourceUrl c =
               (Fulfilled plugin',
                updateState
                  (mkPartialState
                     (Some (<[pluginName := plugin']> (plugins (store c)))) None)
                  c1)))
         ∧ store c1 = store c ∧ memStore c1 = memStore c
         ∧ _pluginRpcHooks c1 = _pluginRpcHooks c
         ∧ _pluginsBeingAdded c1 = _pluginsBeingAdded c
         ∧ promiseCount c1 = promiseCount c).
Proof.
  unfold _add.
  destruct (String.eqb_spec pluginName "") as [Hname|Hname]; [by left|right].
  split; [done|].
  set (url := match sourceUrl with
              | Some u => if String.eqb u "" then pluginName else u
              | None => pluginName
              end).
  unfold try_catch, do_fetch, mbind, Async_bind, bind, exec, await, throw, mret,
    Async_ret, ret. simpl.
  destruct (fetch E url) as [pluginSource|];
    [|eexists; split; [left; by eexists|done]].
  destruct (json pluginSource) as [pluginJson|];
    [|eexists; split; [left; by eexists|done]].
  destruct (destructure_manifest pluginJson) as [[bundle initialPermissions]|];
    [|eexists; split; [left; by eexists|done]].
  destruct (js_get bundle "url") as [bundleUrl|];
    [|eexists; split; [left; by eexists|done]].
  simpl. destruct (fetch E (js_to_string bundleUrl)) as [pluginBundle|];
    [|eexists; split; [left; by eexists|done]].
  destruct (text pluginBundle) as [sourceCode|];
    [|eexists; split; [left; by eexists|done]].
  exists (emit (EvFetch (js_to_string bundleUrl)) (emit (EvFetch url) c)).
  split; [|done]. right. exists initialPermissions, sourceCode. reflexivity.
Qed.

(** X4: when [_add] rejects, the canonical store, the memory projection,
    the rpc hooks and the pending markers are as before; the error is
    [Invalid plugin name] for the empty name, raised before any fetch, and
    otherwise [Problem loading plugin <id>: <cause>], carrying the id. *)
Theorem X4_add_rejected_leaves_state (E : Collaborators) (pluginName : string)
    (sourceUrl : option string) (c c' : Controller) (e : JsError) :
  _add E pluginName sourceUrl c = (Rejected e, c') →
  store c' = store c
  ∧ memStore c' = memStore c
  ∧ _pluginRpcHooks c' = _pluginRpcHooks c
  ∧ _pluginsBeingAdded c' = _pluginsBeingAdded c
  ∧ ((pluginName = "" ∧ e = Error "Invalid plugin name: " ∧ c' = c)
     ∨ (pluginName ≠ ""
        ∧ ∃ msg, e = Error ("Problem loading plugin " ++ pluginName
                            ++ ": " ++ msg))).
Proof.
  intros Hrun.
  destruct (_add_cases E pluginName sourceUrl c)
    as [[-> Hc]|(Hname & c1 & [[msg Hc]|Hc] & Hst & Hmem & Hh & Hm & _)].
  - rewrite Hc in Hrun. injection Hrun as <- <-.
    do 4 (split; [done|]). by left.
  - rewrite Hc in Hrun. injection Hrun as <- <-.
    do 4 (split; [done|]). right. split; [done|]. by exists msg.
  - destruct Hc as (initialPermissions & sourceCode & Hc). simpl in Hc.
    rewrite Hc in Hrun. discriminate.
Qed.

Lemma X4_witness :
  get "foo" (_add offline "foo" None afterInstallFoo).2 = get "foo" afterInstallFoo
  ∧ (_add offline "foo" None afterInstallFoo).1 =
    Rejected (Error "Problem loading plugin foo: Failed to fetch").
Proof.
  assert (Hrun : _add offline "foo" None afterInstallFoo =
                 (Rejected (Error "Problem loading plugin foo: Failed to fetch"),
                  emit (EvFetch "foo") afterInstallFoo)) by reflexivity.
  destruct (X4_add_rejected_leaves_state offline "foo" None afterInstallFoo _ _ Hrun)
    as (Hst & _).
  rewrite Hrun. unfold get. simpl fst. simpl snd. rewrite Hst.
  split; reflexivity.
Defined.



(** ** What [authorize] does to the controller *)

(** X6: when the record of id has a non-empty [initialPermissions],
    [authorize(id)] asks the permission system exactly once, for these
    permissions; it resolves to the [parentCapability] of each approved
    capability, in order, or rejects with the error of the permission
    system; either way the pending marker of id is deleted. *)
Theorem X6_authorize_prompt (E : Collaborators) (pluginName : string)
    (c : Controller) (plugin : JsObject) (n : nat) :
  get pluginName c = Some plugin →
  js_keys_length (field plugin "initialPermissions") = Fulfilled (S n) →
  (authorize E pluginName c).1 =
    match requestPermissions E pluginName (field plugin "initialPermissions") with
    | Fulfilled approvedPermissions =>
        Fulfilled (parentCapability <$> approvedPermissions)
    | Rejected e => Rejected e
    end
  ∧ _pluginsBeingAdded (authorize E pluginName c).2 =
    delete pluginName (_pluginsBeingAdded c)
  ∧ trace (authorize E pluginName c).2 =
    (trace c ++ [EvRequestPermissions pluginName
                   (field plugin "initialPermissions")])%list.
Proof.
  unfold authorize. intros -> ->.
  unfold try_finally, mbind, Async_bind, bind, exec, await, mret, Async_ret, ret.
  simpl. by destruct (requestPermissions E pluginName _).
Qed.

Lemma X6_witness :
  (authorize prompting "foo" afterAddFooPrompting).1 = Fulfilled ["eth_accounts"]
  ∧ _pluginsBeingAdded (authorize prompting "foo" afterAddFooPrompting).2 !! "foo"
    = None.
Proof.
  assert (Hget : get "foo" afterAddFooPrompting =
                 Some (fooRecord (JObject {[ "eth_accounts" := JObject ∅ ]}) false))
    by reflexivity.
  destruct (X6_authorize_prompt prompting "foo" afterAddFooPrompting _ 0 Hget)
    as (Hres & Hmark & _); [reflexivity|].
  split; [exact Hres|]. rewrite Hmark. apply lookup_delete_eq.
Defined.

(** X7: [authorize] never writes the canonical store, the memory
    projection or the rpc hooks, and never touches the pending marker of
    another id: either the controller is exactly as before (no record, no
    prompt needed, or [Object.keys] threw), or one request to the
    permission system was traced and the marker of this id was deleted. *)
Theorem X7_authorize_frame (E : Collaborators) (pluginName : string)
    (c : Controller) :
  store (authorize E pluginName c).2 = store c
  ∧ memStore (authorize E pluginName c).2 = memStore c
  ∧ _pluginRpcHooks (authorize E pluginName c).2 = _pluginRpcHooks c
  ∧ ((authorize E pluginName c).2 = c
     ∨ ∃ requested,
         trace (authorize E pluginName c).2 =
           (trace c ++ [EvRequestPermissions pluginName requested])%list
         ∧ _pluginsBeingAdded (authorize E pluginName c).2 =
           delete pluginName (_pluginsBeingAdded c)).
Proof.
  unfold authorize.
  destruct (get pluginName c) as [plugin|];
    [|do 3 (split; [done|]); by left].
  destruct (js_keys_length _) as [[|n]|];
    [do 3 (split; [done|]); by left| |do 3 (split; [done|]); by left].
  unfold try_finally, mbind, Async_bind, bind, exec, await, mret, Async_ret, ret.
  simpl. destruct (requestPermissions E pluginName _); simpl;
    (do 3 (split; [done|])); right; by eexists.
Qed.

(** ** What [_startPluginInWorker] does to the controller *)

(** X8: when the worker is created and the start command is
    acknowledged, [_startPluginInWorker] fulfils; the rpc hook of the
    plugin is bound to the worker that was created; the record of the
    plugin is the previous one with [isActive] set to [true]; and the
    hook is registered before the start command is sent, the state being
    published only after it. *)
Theorem X8_start_success (E : Collaborators) (pluginName workerId : string)
    (sourceCode : JsValue) (c : Controller) :
  createPluginWorker E pluginName = Fulfilled workerId →
  startPlugin E workerId pluginName sourceCode = Fulfilled tt →
  (_startPluginInWorker E pluginName sourceCode c).1 = Fulfilled tt
  ∧ getRpcMessageHandler pluginName (_startPluginInWorker E pluginName sourceCode c).2
    = Some (mkHook workerId pluginName)
  ∧ get pluginName (_startPluginInWorker E pluginName sourceCode c).2
    = Some (<["isActive" := JBool true]> (default ∅ (get pluginName c)))
  ∧ trace (_startPluginInWorker E pluginName sourceCode c).2 =
    (trace c ++ [EvCreatePluginWorker pluginName; EvHookSet pluginName;
                 EvStartPlugin workerId pluginName sourceCode;
                 EvStoreUpdate; EvMemStoreUpdate])%list.
Proof.
  intros Hcreate Hstart.
  unfold _startPluginInWorker, mbind, Async_bind, bind, exec, await. simpl.
  rewrite Hcreate. simpl. rewrite Hstart. simpl.
  rewrite get_default. unfold get, getRpcMessageHandler. simpl.
  rewrite read_property_insert_eq, lookup_insert_eq.
  do 3 (split; [done|]). by rewrite <- !app_assoc.
Qed.

Lemma X8_witness :
  getRpcMessageHandler "foo"
    (_startPluginInWorker permissive "foo" (JString "code") afterAddFoo).2
  = Some (mkHook "worker-foo" "foo").
Proof.
  apply (X8_start_success permissive "foo" "worker-foo" (JString "code") afterAddFoo);
    reflexivity.
Defined.

(** X9: when [_startPluginInWorker] rejects, the canonical store and the
    memory projection are as before, so [isActive] was not changed.  If
    the worker could not be created, no hook was registered; if the
    start command failed, the hook bound to the created worker stays
    registered. *)
Theorem X9_start_failure (E : Collaborators) (pluginName : string)
    (sourceCode : JsValue) (c : Controller) (e : JsError) :
  (_startPluginInWorker E pluginName sourceCode c).1 = Rejected e →
  store (_startPluginInWorker E pluginName sourceCode c).2 = store c
  ∧ memStore (_startPluginInWorker E pluginName sourceCode c).2 = memStore c
  ∧ ((createPluginWorker E pluginName = Rejected e
      ∧ _pluginRpcHooks (_startPluginInWorker E pluginName sourceCode c).2
        = _pluginRpcHooks c)
     ∨ (∃ workerId,
          createPluginWorker E pluginName = Fulfilled workerId
          ∧ startPlugin E workerId pluginName sourceCode = Rejected e
          ∧ getRpcMessageHandler pluginName
              (_startPluginInWorker E pluginName sourceCode c).2
            = Some (mkHook workerId pluginName))).
Proof.
  unfold _startPluginInWorker, mbind, Async_bind, bind, exec, await. simpl.
  destruct (createPluginWorker E pluginName) as [workerId|e0] eqn:Hcreate; simpl.
  - destruct (startPlugin E workerId pluginName sourceCode) as [[]|e1] eqn:Hstart;
      simpl; [done|].
    intros [= ->]. do 2 (split; [done|]). right. exists workerId.
    do 2 (split; [done|]). unfold getRpcMessageHandler. simpl.
    apply lookup_insert_eq.
  - intros [= ->]. do 2 (split; [done|]). by left.
Qed.

Lemma X9_witness :
  get "foo" (_startPluginInWorker startFails "foo" (JString "code") afterAddFoo).2
  = get "foo" afterAddFoo.
Proof.
  destruct (X9_start_failure startFails "foo" (JString "code") afterAddFoo
              (Error "start failed")) as (Hst & _); [reflexivity|].
  unfold get. by rewrite Hst.
Defined.

(** ** Reset and removal *)

Lemma close_connections_foldl (names : list string) (c : Controller) :
  foldl (λ c0 name, emit (EvCloseAllConnections name) c0) c names =
  mkController (store c) (memStore c) (_pluginRpcHooks c) (_pluginsBeingAdded c)
    (promiseCount c) (trace c ++ (EvCloseAllConnections <$> names)).
Proof.
  revert c. induction names as [|name names IH]; intros c; simpl.
  - rewrite app_nil_r. by destruct c.
  - rewrite IH. simpl. by rewrite <- app_assoc.
Qed.

(** X10: after [clearState()] the store has no record and no plugin
    state, the projection has none either and reports no inline plugin,
    and no rpc hook is left; after the empty state was published, the
    connections of the ids that had a record are closed, each once, in
    some order of these ids, then all workers are terminated in one call
    and the permissions of these ids, listed in that same order, are
    revoked in one call.  The pending-install markers are not cleared. *)
Theorem X10_clearState_resets (c : Controller) :
  plugins (store (clearState c)) = ∅
  ∧ pluginStates (store (clearState c)) = ∅
  ∧ memPlugins (memStore (clearState c)) = ∅
  ∧ memPluginStates (memStore (clearState c)) = ∅
  ∧ inlinePluginIsRunning (memStore (clearState c)) = false
  ∧ _pluginRpcHooks (clearState c) = ∅
  ∧ _pluginsBeingAdded (clearState c) = _pluginsBeingAdded c
  ∧ ∃ pluginNames,
      NoDup pluginNames
      ∧ (∀ id, id ∈ pluginNames ↔ is_Some (plugins (store c) !! id))
      ∧ trace (clearState c) =
        (trace c ++ [EvStoreUpdate; EvMemStoreUpdate]
           ++ (EvCloseAllConnections <$> pluginNames)
           ++ [EvTerminateAll; EvRemoveAllPermissionsFor pluginNames;
               EvMemStoreUpdate])%list.
Proof.
  unfold clearState. rewrite close_connections_foldl. simpl.
  do 2 (split; [done|]). split; [by rewrite fmap_empty|].
  do 4 (split; [done|]).
  exists (map_to_list (plugins (store c))).*1.
  split; [apply NoDup_fst_map_to_list|]. split; [|by rewrite <- !app_assoc].
  intros id. rewrite list_elem_of_fmap. split.
  - intros [[k v] [-> Hin]]. apply elem_of_map_to_list in Hin. by eexists.
  - intros [v Hv]. exists (id, v). split; [done|]. by apply elem_of_map_to_list.
Qed.

(** X11: [removePlugins(names)] leaves every id outside [names] alone:
    its record, its rpc hook and its plugin state are as before; and it
    clears no pending-install marker, not even those of the removed
    ids. *)
Theorem X11_removePlugins_frame (pluginNames : list string) (c : Controller)
    (id : string) :
  id ∉ pluginNames →
  get id (removePlugins pluginNames c) = get id c
  ∧ getRpcMessageHandler id (removePlugins pluginNames c) = getRpcMessageHandler id c
  ∧ getPluginState id (removePlugins pluginNames c) = getPluginState id c
  ∧ _pluginsBeingAdded (removePlugins pluginNames c) = _pluginsBeingAdded c.
Proof.
  intros Hid. unfold removePlugins.
  destruct (foldl removePlugins_each _ pluginNames) as [[c1 np1] nps1] eqn:Hfold.
  apply removePlugins_each_foldl in Hfold as (_ & _ & Hadd & _ & Hmaps).
  destruct (Hmaps id) as [_ (Hh & Hp & Hs)]; [done|].
  unfold get, getRpcMessageHandler, getPluginState, read_property. simpl.
  by rewrite Hh, Hp, Hs.
Qed.

Lemma X11_witness :
  get "a" (removePlugins ["b"] bootedAB) = get "a" bootedAB
  ∧ _pluginsBeingAdded (removePlugins ["foo"] afterAddFoo) =
    _pluginsBeingAdded afterAddFoo.
Proof.
  split.
  - apply (X11_removePlugins_frame ["b"] bootedAB "a").
    by intros [?|[]%elem_of_nil]%elem_of_cons.
  - apply (X11_removePlugins_frame ["foo"] afterAddFoo "bar").
    by intros [?|[]%elem_of_nil]%elem_of_cons.
Defined.

(** ** Permitted plugins *)

Lemma substring_whole (s : string) : String.substring 0 (String.length s) s = s.
Proof. induction s as [|a s IH]; simpl; [done|]. by rewrite IH. Qed.

Lemma prefix_append (p n : string) : String.prefix p (p +:+ n) = true.
Proof.
  induction p as [|a p IH]; simpl; [by destruct n|].
  by destruct (Ascii.ascii_dec a a).
Qed.

Lemma substring_append (p n : string) :
  String.substring (String.length p)
    (String.length (p +:+ n) - String.length p) (p +:+ n) = n.
Proof.
  induction p as [|a p IH]; simpl; [|done].
  rewrite Nat.sub_0_r. apply substring_whole.
Qed.

Lemma prefix_split (p s : string) :
  String.prefix p s = true →
  s = p +:+ String.substring (String.length p)
              (String.length s - String.length p) s.
Proof.
  revert s. induction p as [|a p IH]; intros s; simpl.
  - intros _. by rewrite Nat.sub_0_r, substring_whole.
  - destruct s as [|b s]; simpl; [done|].
    destruct (Ascii.ascii_dec a b) as [->|]; [|done].
    intros Hp. change (String b s = String b (p +:+ String.substring
      (String.length p) (String.length s - String.length p) s)).
    f_equal. by apply IH.
Qed.

(** A capability name is the prefix followed by [id] exactly when it
    starts with the prefix and [id] is what is left of it. *)
Lemma capability_of_plugin (capability id : string) :
  capability = PLUGIN_PREFIX +:+ id ↔
  String.prefix PLUGIN_PREFIX capability = true
  ∧ replace_PLUGIN_PREFIX capability = id.
Proof.
  unfold replace_PLUGIN_PREFIX. split.
  - intros ->. rewrite prefix_append. split; [done|]. apply substring_append.
  - intros [Hp Hid]. rewrite Hp in Hid. rewrite <- Hid. by apply prefix_split.
Qed.

Lemma getPermittedPlugins_foldl_other (c : Controller) (id : string)
    (perms : list IOcapLdCapability)
    (acc : JsDict ProcessPluginReturnType) :
  PLUGIN_PREFIX +:+ id ∉ parentCapability <$> perms →
  foldl (λ permittedPlugins perm,
           if String.prefix PLUGIN_PREFIX (parentCapability perm) then
             let pluginName := replace_PLUGIN_PREFIX (parentCapability perm) in
             let plugin := getSerializable pluginName c in
             assign pluginName (permitted_entry plugin) permittedPlugins
           else permittedPlugins) acc perms !! id = acc !! id.
Proof.
  revert acc. induction perms as [|perm perms IH]; intros acc; [done|].
  rewrite fmap_cons. intros [Hne Hrest]%not_elem_of_cons. cbn [foldl].
  rewrite (IH _ Hrest).
  destruct (String.prefix PLUGIN_PREFIX (parentCapability perm)) eqn:Hp; [|done].
  apply lookup_assign_ne. intros Hid. apply Hne. symmetry.
  apply capability_of_plugin. by split.
Qed.

(** A held plugin capability always yields a value at its id. *)
Lemma getPermittedPlugins_held
    (_getPermissions : string → list IOcapLdCapability)
    (origin : string) (c : Controller) (id : string) :
  PLUGIN_PREFIX +:+ id ∈ parentCapability <$> _getPermissions origin →
  getPermittedPlugins _getPermissions origin c !! id =
  Some (permitted_entry (getSerializable id c)).
Proof.
  unfold getPermittedPlugins.
  generalize (dict_empty : JsDict ProcessPluginReturnType).
  induction (_getPermissions origin) as [|perm perms IH]; intros acc.
  - by intros ?%elem_of_nil.
  - rewrite fmap_cons. intros Hin. cbn [foldl].
    destruct (decide (PLUGIN_PREFIX +:+ id ∈ parentCapability <$> perms))
      as [Hlater|Hnot]; [by apply IH|].
    apply elem_of_cons in Hin as [Heq|?]; [|done].
    rewrite (getPermittedPlugins_foldl_other _ _ _ _ Hnot).
    symmetry in Heq. apply capability_of_plugin in Heq as [-> ->].
    apply lookup_assign_eq.
Qed.

(** X12: the own properties of [getPermittedPlugins(origin)] are the ids,
    other than [__proto__], for which [getPermissions(origin)] has a
    capability named by the prefix followed by the id; the value under an
    id is what [getSerializable] returns for it when that is not [null]
    (the view of the record, or the empty view when the id has no record
    but names a property of [Object.prototype]) and the error [Plugin
    permitted but not installed.] otherwise; for every held id,
    [__proto__] included, this value is what is read back at the id.
    Capabilities of other kinds contribute nothing. *)
Theorem X12_getPermittedPlugins_entries
    (_getPermissions : string → list IOcapLdCapability)
    (origin : string) (c : Controller) (id : string) :
  entries (getPermittedPlugins _getPermissions origin c) !! id =
    (if decide (id = "__proto__") then None
     else if decide (PLUGIN_PREFIX +:+ id
                     ∈ parentCapability <$> _getPermissions origin)
          then Some (permitted_entry (getSerializable id c))
          else None)
  ∧ (PLUGIN_PREFIX +:+ id ∈ parentCapability <$> _getPermissions origin →
     getPermittedPlugins _getPermissions origin c !! id =
     Some (permitted_entry (getSerializable id c))).
Proof.
  split; [|apply getPermittedPlugins_held].
  unfold getPermittedPlugins.
  transitivity
    (if decide (id = "__proto__")
     then entries (dict_empty : JsDict ProcessPluginReturnType) !! id
     else if decide (PLUGIN_PREFIX +:+ id
                     ∈ parentCapability <$> _getPermissions origin)
          then Some (permitted_entry (getSerializable id c))
          else entries (dict_empty : JsDict ProcessPluginReturnType) !! id);
    [|by repeat case_decide].
  generalize (dict_empty : JsDict ProcessPluginReturnType).
  induction (_getPermissions origin) as [|perm perms IH]; intros acc.
  - rewrite fmap_nil. repeat case_decide; try done.
    by match goal with H : _ ∈ [] |- _ => apply elem_of_nil in H end.
  - rewrite fmap_cons. cbn [foldl]. rewrite IH. clear IH.
    destruct (decide (id = "__proto__")) as [->|Hproto].
    + destruct (String.prefix PLUGIN_PREFIX (parentCapability perm)); [|done].
      rewrite entries_assign. case_decide as Hk; [done|].
      apply lookup_insert_ne. done.
    + destruct (decide (_ ∈ parentCapability <$> perms)) as [Hin|Hnotin].
      * rewrite decide_True; [done|]. by right.
      * destruct (String.prefix PLUGIN_PREFIX (parentCapability perm)) eqn:Hp.
        -- destruct (decide (parentCapability perm = PLUGIN_PREFIX +:+ id))
             as [Heq|Hne].
           ++ apply capability_of_plugin in Heq as Hid. destruct Hid as [_ ->].
              rewrite entries_assign, decide_False by done.
              rewrite lookup_insert_eq, decide_True; [done|].
              rewrite Heq. by left.
           ++ rewrite decide_False.
              ** rewrite entries_assign. case_decide; [done|].
                 apply lookup_insert_ne. intros Hid. apply Hne.
                 apply capability_of_plugin. by split.
              ** by intros [?|?]%elem_of_cons.
        -- rewrite decide_False; [done|].
           intros [Heq|?]%elem_of_cons; [|done].
           symmetry in Heq. apply capability_of_plugin in Heq as [Hp' _].
           congruence.
Qed.

Lemma X12_witness :
  getPermittedPlugins someCapabilities "origin" afterInstallFoo !! "bar" =
  Some (ErrorEnvelope (Error "Plugin permitted but not installed.")).
Proof.
  apply (X12_getPermittedPlugins_entries someCapabilities "origin"
           afterInstallFoo "bar").
  apply (bool_decide_unpack _). exact I.
Defined.

(** X13: the [permissionName] that [_add] stores in the record of id is
    the capability name under which [getPermittedPlugins] reports id: once
    [_add] has fulfilled, an origin holding that capability gets the
    serializable view of id, not the not-installed error. *)
Theorem X13_permissionName_roundtrip (E : Collaborators)
    (_getPermissions : string → list IOcapLdCapability)
    (pluginName origin capability : string) (sourceUrl : option string)
    (c c' : Controller) (plugin : JsObject) :
  _add E pluginName sourceUrl c = (Fulfilled plugin, c') →
  plugin !! "permissionName" = Some (JString capability) →
  mkCapability capability ∈ _getPermissions origin →
  ∃ view,
    getSerializable pluginName c' = Some view
    ∧ getPermittedPlugins _getPermissions origin c' !! pluginName =
      Some (Serializable (Some view)).
Proof.
  intros Hrun Hperm Hheld.
  destruct (_add_cases E pluginName sourceUrl c)
    as [[-> Hc]|(Hname & c1 & [[msg Hc]|Hc] & _)];
    [rewrite Hc in Hrun; discriminate..|].
  destruct Hc as (initialPermissions & sourceCode & Hc). simpl in Hc.
  rewrite Hc in Hrun. injection Hrun as <- <-. clear Hc.
  destruct (constructed_record_lookup pluginName sourceCode initialPermissions)
    as (_ & _ & Hp & _). simpl in Hp.
  assert (Hcap : capability = PLUGIN_PREFIX +:+ pluginName).
  { destruct (plugins (store c) !! pluginName) as [old|].
    - rewrite (lookup_union_Some_l _ _ _ _ Hp) in Hperm. by injection Hperm.
    - rewrite Hp in Hperm. by injection Hperm. }
  subst capability.
  rewrite getPermittedPlugins_held.
  - unfold getSerializable, get. simpl. rewrite read_property_insert_eq.
    eexists. split; reflexivity.
  - apply list_elem_of_fmap. by exists (mkCapability (PLUGIN_PREFIX +:+ pluginName)).
Qed.

Lemma X13_witness :
  ∃ view,
    getSerializable "foo" (_add permissive "foo" None emptyController).2 = Some view
    ∧ getPermittedPlugins someCapabilities "origin"
        (_add permissive "foo" None emptyController).2 !! "foo" =
      Some (Serializable (Some view)).
Proof.
  apply (X13_permissionName_roundtrip permissive someCapabilities "foo" "origin"
           "wallet_plugin_foo" None emptyController _
           (fooRecord (JObject ∅) false)).
  - reflexivity.
  - reflexivity.
  - constructor.
Defined.

(** ** Restart on boot, in general *)

Lemma runExistingPlugins_foldl (E : Collaborators) (c : Controller) :
  runExistingPlugins E c =
  if bool_decide (0 < size (plugins (store c)))
  then foldl (runExistingPlugins_each E) c (map_to_list (plugins (store c))).*2
  else c.
Proof. reflexivity. Qed.

(** One step of the loop is the start, whatever its outcome. *)
Lemma runExistingPlugins_each_start (E : Collaborators) (c0 : Controller)
    (plugin : JsObject) :
  let started :=
    (_startPluginInWorker E (js_to_string (field plugin "name"))
       (field plugin "sourceCode") c0).2 in
  store (runExistingPlugins_each E c0 plugin) = store started
  ∧ memStore (runExistingPlugins_each E c0 plugin) = memStore started
  ∧ _pluginRpcHooks (runExistingPlugins_each E c0 plugin) = _pluginRpcHooks started
  ∧ _pluginsBeingAdded (runExistingPlugins_each E c0 plugin)
    = _pluginsBeingAdded started
  ∧ trace (runExistingPlugins_each E c0 plugin) = trace started.
Proof.
  unfold runExistingPlugins_each, call_async.
  by destruct (_startPluginInWorker E _ _ c0).
Qed.

(** What a start, successful or not, keeps. *)
Lemma _startPluginInWorker_keeps (E : Collaborators) (pluginName : string)
    (sourceCode : JsValue) (c : Controller) :
  pluginStates (store (_startPluginInWorker E pluginName sourceCode c).2)
  = pluginStates (store c)
  ∧ _pluginsBeingAdded (_startPluginInWorker E pluginName sourceCode c).2
    = _pluginsBeingAdded c
  ∧ dom (plugins (store c))
    ⊆ dom (plugins (store (_startPluginInWorker E pluginName sourceCode c).2))
  ∧ dom (_pluginRpcHooks c)
    ⊆ dom (_pluginRpcHooks (_startPluginInWorker E pluginName sourceCode c).2).
Proof.
  unfold _startPluginInWorker, mbind, Async_bind, bind, exec, await. simpl.
  destruct (createPluginWorker E pluginName) as [workerId|]; simpl; [|done].
  destruct (startPlugin E workerId pluginName sourceCode); simpl.
  - rewrite !dom_insert_L. set_solver.
  - rewrite !dom_insert_L. set_solver.
Qed.

(** X14: [runExistingPlugins()] removes nothing, whatever the worker
    controller answers: every id that had a record still has one, every
    rpc hook that existed still exists, and the plugin states and the
    pending markers are as before. *)
Theorem X14_runExistingPlugins_removes_nothing (E : Collaborators)
    (c : Controller) :
  dom (plugins (store c)) ⊆ dom (plugins (store (runExistingPlugins E c)))
  ∧ dom (_pluginRpcHooks c) ⊆ dom (_pluginRpcHooks (runExistingPlugins E c))
  ∧ pluginStates (store (runExistingPlugins E c)) = pluginStates (store c)
  ∧ _pluginsBeingAdded (runExistingPlugins E c) = _pluginsBeingAdded c.
Proof.
  rewrite runExistingPlugins_foldl. case_bool_decide as Hsize; [clear Hsize|done].
  generalize ((map_to_list (plugins (store c))).*2). intros l. revert c.
  induction l as [|plugin l IH]; intros c; simpl; [done|].
  destruct (IH (runExistingPlugins_each E c plugin)) as (Hd & Hh & Hs & Hm).
  destruct (runExistingPlugins_each_start E c plugin) as (Hst & _ & Hhk & Hmk & _).
  destruct (_startPluginInWorker_keeps E (js_to_string (field plugin "name"))
              (field plugin "sourceCode") c) as (Hs' & Hm' & Hd' & Hh').
  rewrite Hst in Hd, Hs. rewrite Hhk in Hh. rewrite Hmk in Hm.
  split; [by etrans|]. split; [by etrans|]. split; congruence.
Qed.

(** A plugin that is active with its hook stays so through any later
    start, of itself or of another plugin. *)
Lemma _startPluginInWorker_keeps_active (E : Collaborators)
    (pluginName workerId other : string) (sourceCode : JsValue) (c : Controller) :
  createPluginWorker E pluginName = Fulfilled workerId →
  (∃ plugin, get pluginName c = Some plugin
             ∧ plugin !! "isActive" = Some (JBool true)) →
  getRpcMessageHandler pluginName c = Some (mkHook workerId pluginName) →
  (∃ plugin, get pluginName (_startPluginInWorker E other sourceCode c).2
             = Some plugin
             ∧ plugin !! "isActive" = Some (JBool true))
  ∧ getRpcMessageHandler pluginName (_startPluginInWorker E other sourceCode c).2
    = Some (mkHook workerId pluginName).
Proof.
  intros Hcreate (plugin & Hget & Hact) Hhook.
  unfold _startPluginInWorker, mbind, Async_bind, bind, exec, await. simpl.
  destruct (createPluginWorker E other) as [w|] eqn:Hother; simpl;
    [|split; [by exists plugin|done]].
  assert (Hhook' : <[other := mkHook w other]> (_pluginRpcHooks c) !! pluginName
                   = Some (mkHook workerId pluginName)).
  { destruct (decide (other = pluginName)) as [->|Hne].
    - rewrite lookup_insert_eq. congruence.
    - by rewrite lookup_insert_ne. }
  destruct (startPlugin E w other sourceCode); simpl;
    [|split; [by exists plugin|done]].
  split; [|done]. unfold get in *. simpl.
  destruct (decide (other = pluginName)) as [->|Hne].
  - rewrite read_property_insert_eq. eexists. split; [done|].
    apply lookup_insert_eq.
  - rewrite read_property_insert_ne by done. by exists plugin.
Qed.

Lemma runExistingPlugins_each_keeps_active (E : Collaborators)
    (pluginName workerId : string) (l : list JsObject) (c : Controller) :
  createPluginWorker E pluginName = Fulfilled workerId →
  (∃ plugin, get pluginName c = Some plugin
             ∧ plugin !! "isActive" = Some (JBool true)) →
  getRpcMessageHandler pluginName c = Some (mkHook workerId pluginName) →
  (∃ plugin, get pluginName (foldl (runExistingPlugins_each E) c l) = Some plugin
             ∧ plugin !! "isActive" = Some (JBool true))
  ∧ getRpcMessageHandler pluginName (foldl (runExistingPlugins_each E) c l)
    = Some (mkHook workerId pluginName).
Proof.
  intros Hcreate. revert c. induction l as [|plugin l IH]; intros c Hact Hhook;
    simpl; [done|].
  destruct (_startPluginInWorker_keeps_active E pluginName workerId
              (js_to_string (field plugin "name")) (field plugin "sourceCode")
              c Hcreate Hact Hhook) as [Hact' Hhook'].
  destruct (runExistingPlugins_each_start E c plugin) as (Hst & _ & Hhk & _).
  apply IH.
  - unfold get in *. by rewrite Hst.
  - unfold getRpcMessageHandler in *. by rewrite Hhk.
Qed.

(** X15: [runExistingPlugins()] activates every record whose start
    succeeds, whatever happens to the others: if a stored record has a
    string [name], the worker for that name is created and its start
    command is acknowledged, then afterwards the record stored under that
    name has [isActive] true and the rpc hook of that name is bound to
    that worker. *)
Theorem X15_runExistingPlugins_activates (E : Collaborators) (c : Controller)
    (key name workerId : string) (plugin : JsObject) :
  plugins (store c) !! key = Some plugin →
  plugin !! "name" = Some (JString name) →
  createPluginWorker E name = Fulfilled workerId →
  startPlugin E workerId name (field plugin "sourceCode") = Fulfilled tt →
  (∃ record, get name (runExistingPlugins E c) = Some record
             ∧ record !! "isActive" = Some (JBool true))
  ∧ getRpcMessageHandler name (runExistingPlugins E c)
    = Some (mkHook workerId name).
Proof.
  intros Hkey Hname Hcreate Hstart. rewrite runExistingPlugins_foldl.
  assert (Hcoerce : js_to_string (field plugin "name") = name)
    by (unfold field; by rewrite Hname).
  case_bool_decide as Hsize.
  - assert (Hin : plugin ∈ (map_to_list (plugins (store c))).*2).
    { apply list_elem_of_fmap. exists (key, plugin). split; [done|].
      by apply elem_of_map_to_list. }
    apply list_elem_of_split in Hin as (l1 & l2 & ->).
    rewrite foldl_app. simpl.
    set (c1 := foldl (runExistingPlugins_each E) c l1).
    destruct (runExistingPlugins_each_start E c1 plugin) as (Hst & _ & Hhk & _).
    rewrite Hcoerce in Hst, Hhk.
    apply runExistingPlugins_each_keeps_active; [done| |].
    + unfold get. rewrite Hst.
      unfold _startPluginInWorker, mbind, Async_bind, bind, exec, await. simpl.
      rewrite Hcreate. simpl. rewrite Hstart. simpl.
      rewrite read_property_insert_eq. eexists. split; [done|].
      apply lookup_insert_eq.
    + unfold getRpcMessageHandler. rewrite Hhk.
      unfold _startPluginInWorker, mbind, Async_bind, bind, exec, await. simpl.
      rewrite Hcreate. simpl. rewrite Hstart. simpl. apply lookup_insert_eq.
  - exfalso. apply Hsize.
    destruct (decide (size (plugins (store c)) = 0)) as [Hz|]; [|lia].
    apply map_size_empty_iff in Hz. rewrite Hz in Hkey. by rewrite lookup_empty in Hkey.
Qed.

Lemma X15_witness :
  (∃ record, get "a" (runExistingPlugins onlyAStarts bootedAB) = Some record
             ∧ record !! "isActive" = Some (JBool true))
  ∧ getRpcMessageHandler "a" (runExistingPlugins onlyAStarts bootedAB)
    = Some (mkHook "worker-a" "a").
Proof.
  apply (X15_runExistingPlugins_activates onlyAStarts bootedAB "a" "a" "worker-a"
           (persisted "a")); reflexivity.
Defined.

(** ** The install pipeline, in general *)

(** X16: when [processRequestedPlugin(id)] goes through the pipeline (the
    plugin was not active) and resolves to a view, the record of id is
    active, an rpc hook for id is registered, and the view is the
    serializable view of the record as stored at the end. *)
Theorem X16_processRequestedPlugin_view_means_started (E : Collaborators)
    (pluginName : string) (c c' : Controller) (view : option JsObject) :
  js_truthy (default JUndefined (get pluginName c ≫= (.!! "isActive"))) = false →
  processRequestedPlugin E pluginName c = (Fulfilled (Serializable view), c') →
  (∃ plugin, get pluginName c' = Some plugin
             ∧ plugin !! "isActive" = Some (JBool true))
  ∧ is_Some (getRpcMessageHandler pluginName c')
  ∧ view = getSerializable pluginName c'
  ∧ is_Some view.
Proof.
  intros Hactive. unfold processRequestedPlugin. rewrite Hactive.
  unfold try_catch, mbind, Async_bind, bind, mret, Async_ret, ret.
  destruct (await_add E pluginName c) as [[added|e] c1]; [|done].
  destruct (authorize E pluginName c1) as [[approved|e] c2]; [|done].
  destruct (_startPluginInWorker E pluginName (field added "sourceCode") c2)
    as [[u|e] c3] eqn:Hstart; [|done].
  intros [= <- <-].
  apply _startPluginInWorker_fulfilled in Hstart as (plugin & Hget & Hact & Hhook).
  split; [by exists plugin|]. split; [done|]. split; [done|].
  apply getSerializable_is_Some. by eexists.
Qed.

Lemma X16_witness :
  (∃ plugin, get "foo" afterInstallFoo = Some plugin
             ∧ plugin !! "isActive" = Some (JBool true))
  ∧ is_Some (getRpcMessageHandler "foo" afterInstallFoo).
Proof.
  destruct (X16_processRequestedPlugin_view_means_started permissive "foo"
              emptyController afterInstallFoo (Some (fooView (JObject ∅))))
    as (Hact & Hhook & _); [reflexivity| |by split].
  unfold afterInstallFoo.
  destruct (processRequestedPlugin permissive "foo" emptyController)
    as [r c'] eqn:Hrun.
  assert (Hr : r = (processRequestedPlugin permissive "foo" emptyController).1)
    by (by rewrite Hrun).
  rewrite Hr. reflexivity.
Defined.

Lemma _add_rejected_store (E : Collaborators) (pluginName : string)
    (sourceUrl : option string) (c : Controller) (e : JsError) :
  (_add E pluginName sourceUrl c).1 = Rejected e →
  store (_add E pluginName sourceUrl c).2 = store c.
Proof.
  destruct (_add_cases E pluginName sourceUrl c)
    as [[-> Hc]|(Hname & c1 & [[msg Hc]|Hc] & Hst & _)].
  - by rewrite Hc.
  - by rewrite Hc.
  - destruct Hc as (initialPermissions & sourceCode & Hc). simpl in Hc.
    by rewrite Hc.
Qed.

(** X17: a failed installation is never retried.  If no installation of
    id is pending, the plugin is not active and [_add] rejects with an
    error, then [processRequestedPlugin(id)] resolves to the envelope of
    that error, the store is as before, and a second
    [processRequestedPlugin(id)] resolves to the same envelope without
    changing the controller at all, so without fetching again: the marker
    holding the rejected promise is still there. *)
Theorem X17_failed_add_is_remembered (E : Collaborators) (pluginName : string)
    (c : Controller) (e : JsError) :
  _pluginsBeingAdded c !! pluginName = None →
  js_truthy (default JUndefined (get pluginName c ≫= (.!! "isActive"))) = false →
  (_add E pluginName None c).1 = Rejected e →
  (processRequestedPlugin E pluginName c).1 = Fulfilled (ErrorEnvelope e)
  ∧ store (processRequestedPlugin E pluginName c).2 = store c
  ∧ is_Some (_pluginsBeingAdded (processRequestedPlugin E pluginName c).2
               !! pluginName)
  ∧ processRequestedPlugin E pluginName (processRequestedPlugin E pluginName c).2
    = (Fulfilled (ErrorEnvelope e), (processRequestedPlugin E pluginName c).2).
Proof.
  intros Hmark Hactive Hrej.
  pose proof (_add_rejected_store E pluginName None c e Hrej) as Hstore.
  assert (Hfirst : ∃ c1,
            processRequestedPlugin E pluginName c = (Fulfilled (ErrorEnvelope e), c1)
            ∧ store c1 = store c
            ∧ ∃ id, _pluginsBeingAdded c1 !! pluginName
                    = Some (mkPromise id (Rejected e))).
  { unfold processRequestedPlugin. rewrite Hactive.
    unfold try_catch, mbind, Async_bind, bind, mret, Async_ret, ret, await_add, add.
    rewrite Hmark. unfold call_async.
    destruct (_add E pluginName None c) as [o c0]. simpl in Hrej, Hstore.
    subst o. simpl. eexists. split; [done|]. split; [done|].
    simpl. rewrite lookup_insert_eq. by eexists. }
  destruct Hfirst as (c1 & Hrun & Hst1 & id & Hmark1). rewrite Hrun. simpl.
  split; [done|]. split; [done|]. split; [by eexists|].
  unfold processRequestedPlugin, get. rewrite Hst1. unfold get in Hactive.
  rewrite Hactive.
  unfold try_catch, mbind, Async_bind, bind, mret, Async_ret, ret, await_add, add.
  by rewrite Hmark1.
Qed.

Lemma X17_witness :
  (processRequestedPlugin offline "foo" emptyController).1 =
    Fulfilled (ErrorEnvelope (Error "Problem loading plugin foo: Failed to fetch"))
  ∧ processRequestedPlugin offline "foo"
      (processRequestedPlugin offline "foo" emptyController).2
    = (Fulfilled (ErrorEnvelope (Error "Problem loading plugin foo: Failed to fetch")),
       (processRequestedPlugin offline "foo" emptyController).2).
Proof.
  destruct (X17_failed_add_is_remembered offline "foo" emptyController
              (Error "Problem loading plugin foo: Failed to fetch"))
    as (Hfirst & _ & _ & Hsecond); [reflexivity..|].
  by split.
Defined.

(** ** Inline mode *)

(** X18: [runInlinePlugin] returns normally and sets
    [inlinePluginIsRunning], whether or not the start of the reserved
    plugin succeeds (the start is not awaited); and
    [removeInlinePlugin()] after it leaves the flag false, no record and
    no rpc hook for the reserved id. *)
Theorem X18_inline_mode (E : Collaborators) (INLINE_PLUGINS : string → JsValue)
    (inlinePluginName : option string) (c : Controller) :
  (runInlinePlugin E INLINE_PLUGINS inlinePluginName c).1 = Normal tt
  ∧ inlinePluginIsRunning
      (memStore (runInlinePlugin E INLINE_PLUGINS inlinePluginName c).2) = true
  ∧ inlinePluginIsRunning
      (memStore (removeInlinePlugin
                   (runInlinePlugin E INLINE_PLUGINS inlinePluginName c).2)) = false
  ∧ get "inlinePlugin"
      (removeInlinePlugin (runInlinePlugin E INLINE_PLUGINS inlinePluginName c).2)
    = None
  ∧ getRpcMessageHandler "inlinePlugin"
      (removeInlinePlugin (runInlinePlugin E INLINE_PLUGINS inlinePluginName c).2)
    = None.
Proof.
  unfold runInlinePlugin, call_async.
  destruct (_startPluginInWorker E "inlinePlugin" _ c) as [o c1]. simpl.
  do 3 (split; [done|]).
  unfold removeInlinePlugin, removePlugin, removePlugins, get, getRpcMessageHandler,
    read_property.
  simpl. rewrite !lookup_delete_eq. split; [|done].
  by rewrite bool_decide_eq_false_2 by (by vm_compute).
Qed.

(** ** Installing one id leaves the others alone *)

Lemma untouched_refl (id : string) (c : Controller) : untouched id c c.
Proof. by repeat split. Qed.

Lemma untouched_trans (id : string) (c1 c2 c3 : Controller) :
  untouched id c1 c2 → untouched id c2 c3 → untouched id c1 c3.
Proof.
  unfold untouched. intros (? & ? & ? & ?) (? & ? & ? & ?).
  repeat split; congruence.
Qed.

Lemma await_add_untouched (E : Collaborators) (pluginName other : string)
    (c : Controller) :
  pluginName ≠ other → untouched other c (await_add E pluginName c).2.
Proof.
  intros Hne. unfold await_add, add.
  destruct (_pluginsBeingAdded c !! pluginName) as [pending|];
    [apply untouched_refl|].
  unfold call_async.
  destruct (_add_cases E pluginName None c)
    as [[-> Hc]|(Hname & c1 & [[msg Hc]|Hc] & Hst & _ & Hh & Hm & _)].
  - rewrite Hc. unfold untouched, get, getRpcMessageHandler, getPluginState.
    simpl. by rewrite lookup_insert_ne.
  - rewrite Hc. unfold untouched, get, getRpcMessageHandler, getPluginState.
    simpl. rewrite Hst, Hh, Hm. by rewrite lookup_insert_ne.
  - destruct Hc as (initialPermissions & sourceCode & Hc). simpl in Hc.
    rewrite Hc. unfold untouched, get, getRpcMessageHandler, getPluginState.
    simpl. rewrite Hst, Hh, Hm.
    by rewrite read_property_insert_ne, lookup_insert_ne.
Qed.

Lemma authorize_untouched (E : Collaborators) (pluginName other : string)
    (c : Controller) :
  pluginName ≠ other → untouched other c (authorize E pluginName c).2.
Proof.
  intros Hne. unfold authorize.
  destruct (get pluginName c) as [plugin|]; [|apply untouched_refl].
  destruct (js_keys_length _) as [[|n]|]; [apply untouched_refl| |apply untouched_refl].
  unfold try_finally, mbind, Async_bind, bind, exec, await, mret, Async_ret, ret.
  simpl. destruct (requestPermissions E pluginName _); simpl;
    unfold untouched, get, getRpcMessageHandler, getPluginState; simpl;
    by rewrite lookup_delete_ne.
Qed.

Lemma _startPluginInWorker_untouched (E : Collaborators)
    (pluginName other : string) (sourceCode : JsValue) (c : Controller) :
  pluginName ≠ other →
  untouched other c (_startPluginInWorker E pluginName sourceCode c).2.
Proof.
  intros Hne.
  unfold _startPluginInWorker, mbind, Async_bind, bind, exec, await. simpl.
  destruct (createPluginWorker E pluginName) as [workerId|]; simpl; [|done].
  destruct (startPlugin E workerId pluginName sourceCode); simpl;
    unfold untouched, get, getRpcMessageHandler, getPluginState; simpl;
    by rewrite ?read_property_insert_ne, ?lookup_insert_ne.
Qed.

Lemma processRequestedPlugin_untouched (E : Collaborators)
    (pluginName other : string) (c : Controller) :
  pluginName ≠ other → untouched other c (processRequestedPlugin E pluginName c).2.
Proof.
  intros Hne. unfold processRequestedPlugin.
  destruct (js_truthy _); [apply untouched_refl|].
  unfold try_catch, mbind, Async_bind, bind, mret, Async_ret, ret.
  pose proof (await_add_untouched E pluginName other c Hne) as H1.
  destruct (await_add E pluginName c) as [[added|e] c1]; [|done].
  pose proof (authorize_untouched E pluginName other c1 Hne) as H2.
  destruct (authorize E pluginName c1) as [[approved|e] c2];
    [|by apply (untouched_trans _ _ c1)].
  pose proof (_startPluginInWorker_untouched E pluginName other
                (field added "sourceCode") c2 Hne) as H3.
  destruct (_startPluginInWorker E pluginName (field added "sourceCode") c2)
    as [[u|e] c3]; simpl in *;
    apply (untouched_trans _ _ c1); [done| |done|];
    by apply (untouched_trans _ _ c2).
Qed.

(** An id that is not handled, or is refused, is left alone. *)
Lemma installEach_untouched (E : Collaborators) (origin other : string)
    (pluginNames : list string) (acc : JsDict ProcessPluginReturnType)
    (c : Controller) :
  (other ∈ pluginNames → hasPermission E origin (PLUGIN_PREFIX ++ other) = false) →
  untouched other c (installEach E origin pluginNames acc c).2.
Proof.
  revert acc c. induction pluginNames as [|pluginName rest IH]; intros acc c Hother;
    simpl; [apply untouched_refl|].
  assert (Hrest : other ∈ rest →
                  hasPermission E origin (PLUGIN_PREFIX ++ other) = false)
    by (intros ?; apply Hother; by right).
  destruct (hasPermission E origin (PLUGIN_PREFIX ++ pluginName)) eqn:Hperm;
    [|by apply IH].
  assert (Hne : pluginName ≠ other).
  { intros ->. rewrite Hother in Hperm; [done|by left]. }
  unfold mbind, Async_bind, bind.
  pose proof (processRequestedPlugin_untouched E pluginName other c Hne) as Hone.
  destruct (processRequestedPlugin E pluginName c) as [[r|e] c1]; simpl in Hone.
  - apply (untouched_trans _ _ c1); [done|by apply IH].
  - done.
Qed.

(** X19: [installPlugins(origin, requestedPlugins)] changes nothing that
    belongs to an id it was not asked for: the record, the rpc hook, the
    pending marker and the plugin state of such an id are as before. *)
Theorem X19_installPlugins_frame (E : Collaborators) (origin other : string)
    (requestedPlugins : JsObject) (c : Controller) :
  requestedPlugins !! other = None →
  untouched other c (installPlugins E origin requestedPlugins c).2.
Proof.
  intros Hother. unfold installPlugins. apply installEach_untouched.
  intros [[k v] [-> Hin]]%list_elem_of_fmap.
  apply elem_of_map_to_list in Hin. simpl in Hother. congruence.
Qed.

Lemma X19_witness :
  untouched "foo" afterInstallFoo
    (installPlugins permissive "origin" {[ "bar" := JObject ∅ ]} afterInstallFoo).2.
Proof.
  apply (X19_installPlugins_frame permissive "origin" "foo"
           {[ "bar" := JObject ∅ ]} afterInstallFoo).
  reflexivity.
Defined.

(** ** An installation depends on its own id only *)








(** ** The permission-gated install workflow (C7) *)

Section install.

Variable E : Collaborators.
Variable origin : string.









End install.

